(** * Godot tileset exporter: shallow embedding and verified properties

    Embedding of [export_to_godot_tileset.mjs] (class [GodotTilesetExporter]
    and the registered [customTilesetFormat]).  JavaScript strings are
    [string], integer-valued host numbers (tile ids, grid coordinates, pixel
    sizes) are [Z], and the host's floating numbers (object geometry, parsed
    z-index values) are kept behind the [JSNumber] interface, so that every
    generic statement holds for whatever arithmetic and number printing the
    host provides. *)

From Stdlib Require Import ZArith List String Ascii Bool Lia DecimalString
  Sorted.
Import ListNotations.

Open Scope string_scope.
Open Scope Z_scope.

(** ** Text helpers *)

Module Text.

(** The two characters a template literal cannot hold directly here. *)
Definition nl : string := String (ascii_of_nat 10) EmptyString.
Definition dq : string := String (ascii_of_nat 34) EmptyString.

Definition comma : ascii := ascii_of_nat 44.

(** The regular-expression class [\s], on the ASCII code units that can occur
    in the exporter's accumulated text: TAB, LF, VT, FF, CR and space. *)
Definition isWhitespace (c : ascii) : bool :=
  let n := nat_of_ascii c in
  ((9 <=? n)%nat && (n <=? 13)%nat) || (n =? 32)%nat.

Definition isSeparatorChar (c : ascii) : bool :=
  Ascii.eqb c comma || isWhitespace c.

Fixpoint allWhitespace (s : string) : bool :=
  match s with
  | EmptyString => true
  | String c r => isWhitespace c && allWhitespace r
  end.

(** [matchesTrailingSeparator s] holds when the pattern [/,\s*$/] matches
    somewhere in [s]: some comma is followed by whitespace only, up to the
    end of the text. *)
Fixpoint matchesTrailingSeparator (s : string) : bool :=
  match s with
  | EmptyString => false
  | String c r =>
      (Ascii.eqb c comma && allWhitespace r) || matchesTrailingSeparator r
  end.

(** [s.replace(/,\s*$/, "")]: the leftmost match (a comma with only
    whitespace after it) is removed, the text is unchanged without a match. *)
Fixpoint stripTrailingSeparator (s : string) : string :=
  match s with
  | EmptyString => EmptyString
  | String c r =>
      if Ascii.eqb c comma && allWhitespace r then EmptyString
      else String c (stripTrailingSeparator r)
  end.

(** [Array.prototype.join] on an array of strings. *)
Fixpoint join (sep : string) (l : list string) : string :=
  match l with
  | [] => EmptyString
  | [x] => x
  | x :: r => x ++ sep ++ join sep r
  end.

(** String concatenation of all the pieces of a list, left to right. *)
Definition concat (l : list string) : string :=
  fold_right String.append EmptyString l.

(** Default conversion of an integer-valued number to text. *)
Definition showZ (z : Z) : string := NilZero.string_of_int (Z.to_int z).

(** Default conversion of a boolean to text. *)
Definition showBool (b : bool) : string := if b then "true" else "false".

(** The last character of the text exists and is neither a comma nor
    whitespace. *)
Fixpoint endsClean (s : string) : bool :=
  match s with
  | EmptyString => false
  | String c EmptyString => negb (isSeparatorChar c)
  | String _ r => endsClean r
  end.

End Text.

Import Text.

(** ** The host's number type *)

(** What the exporter needs from the host's numbers: addition, the test
    [n > 0], [isNaN], [parseFloat] and the default conversion to text.  The
    one law records that a printed number is never empty and never ends in a
    comma or in whitespace (digits, a sign, a dot, an exponent, [NaN] and
    [Infinity] are all it is made of). *)
Class JSNumber : Type := {
  num : Type;
  num_add : num -> num -> num;
  num_positive : num -> bool;
  num_isNaN : num -> bool;
  parseFloat : string -> num;
  num_toString : num -> string;
  num_toString_endsClean : forall n, endsClean (num_toString n) = true
}.

(** ** Data model and exporter *)

Section Exporter.

Context {N : JSNumber}.

(** One element of [object.polygon]: a point relative to the object. *)
Record Point : Type := {
  point_x : num;
  point_y : num
}.

(** A [MapObject] of a tile's object group, with the fields the exporter
    reads. *)
Record MapObject : Type := {
  object_type : string;
  object_x : num;
  object_y : num;
  object_width : num;
  object_height : num;
  object_polygon : list Point
}.

(** A [Tile]: [tile_z_index] is [tile.property('godot:z_index')] ([None] for
    [undefined], otherwise the text of the value), [tile_objectGroup] is
    [tile.objectGroup] ([None] for [null], otherwise its [objects]). *)
Record Tile : Type := {
  tile_id : Z;
  tile_z_index : option string;
  tile_objectGroup : option (list MapObject)
}.

Record Tileset : Type := {
  tileset_name : string;
  tileset_image : string;
  tileset_projectRoot : option string;
  tileset_relativePath : option string;
  imageWidth : Z;
  imageHeight : Z;
  margin : Z;
  tileWidth : Z;
  tileHeight : Z;
  tileSpacing : Z;
  tiles : list Tile
}.

(** The two helpers imported from [utils.mjs]. *)
Variable getResPath : option string -> option string -> string -> string.
Variable getTilesetColumns : Tileset -> Z.

(** [autotileCoordinates]. *)
Record Coord : Type := {
  coord_x : Z;
  coord_y : Z
}.

(** The fields of a [GodotTilesetExporter] instance. *)
Record GodotTilesetExporter : Type := {
  tileset : Tileset;
  fileName : string;
  spriteImagePath : string;
  shapesResources : string;
  shapes : string;
  navpolyMap : list string;
  zIndexMap : list (Z * Z * num);
  firstShapeID : string
}.

(** What the exporter does to its host: [tiled.warn], [tiled.log], and a
    [TextFile] written and committed. *)
Inductive HostEvent : Type :=
| Warn (message : string)
| Log (message : string)
| FileCommit (path content : string).

Definition constructor (ts : Tileset) (file : string) : GodotTilesetExporter :=
  {| tileset := ts;
     fileName := file;
     spriteImagePath :=
       getResPath (tileset_projectRoot ts) (tileset_relativePath ts)
                  (tileset_image ts);
     shapesResources := "";
     shapes := "";
     navpolyMap := [];
     zIndexMap := [];
     firstShapeID := "0" |}.

Definition set_shapesResources (v : string) (e : GodotTilesetExporter) :=
  {| tileset := tileset e; fileName := fileName e;
     spriteImagePath := spriteImagePath e; shapesResources := v;
     shapes := shapes e; navpolyMap := navpolyMap e;
     zIndexMap := zIndexMap e; firstShapeID := firstShapeID e |}.

Definition set_shapes (v : string) (e : GodotTilesetExporter) :=
  {| tileset := tileset e; fileName := fileName e;
     spriteImagePath := spriteImagePath e;
     shapesResources := shapesResources e;
     shapes := v; navpolyMap := navpolyMap e;
     zIndexMap := zIndexMap e; firstShapeID := firstShapeID e |}.

Definition set_navpolyMap (v : list string) (e : GodotTilesetExporter) :=
  {| tileset := tileset e; fileName := fileName e;
     spriteImagePath := spriteImagePath e;
     shapesResources := shapesResources e;
     shapes := shapes e; navpolyMap := v;
     zIndexMap := zIndexMap e; firstShapeID := firstShapeID e |}.

Definition set_zIndexMap (v : list (Z * Z * num)) (e : GodotTilesetExporter) :=
  {| tileset := tileset e; fileName := fileName e;
     spriteImagePath := spriteImagePath e;
     shapesResources := shapesResources e;
     shapes := shapes e; navpolyMap := navpolyMap e;
     zIndexMap := v; firstShapeID := firstShapeID e |}.

Definition set_firstShapeID (v : string) (e : GodotTilesetExporter) :=
  {| tileset := tileset e; fileName := fileName e;
     spriteImagePath := spriteImagePath e;
     shapesResources := shapesResources e;
     shapes := shapes e; navpolyMap := navpolyMap e;
     zIndexMap := zIndexMap e; firstShapeID := v |}.

(** *** Shape text *)

Definition getShapesTemplate (coordinates : Coord) (isOneWay : bool)
    (shapeID : Z) : string :=
  let coordinateString :=
    showZ (coord_x coordinates) ++ ", " ++ showZ (coord_y coordinates) in
  "{" ++ nl ++
  dq ++ "autotile_coord" ++ dq ++ ": Vector2( " ++ coordinateString ++ " ),"
     ++ nl ++
  dq ++ "one_way" ++ dq ++ ": " ++ showBool isOneWay ++ "," ++ nl ++
  dq ++ "one_way_margin" ++ dq ++ ": 1.0," ++ nl ++
  dq ++ "shape" ++ dq ++ ": SubResource( " ++ showZ shapeID ++ " )," ++ nl ++
  dq ++ "shape_transform" ++ dq ++ ": Transform2D( 1, 0, 0, 1, 0, 0 )" ++ nl ++
  "}, ".

(** The [forEach] of the two polygon builders: every point appends
    [coordinateX + ", " + coordinateY + ", "]; the trailing separator is
    removed afterwards. *)
Definition polygonCoordinateString (object : MapObject) : string :=
  let coordinateString :=
    fold_left
      (fun acc coordinate =>
         let coordinateX := num_add (object_x object) (point_x coordinate) in
         let coordinateY := num_add (object_y object) (point_y coordinate) in
         acc ++ (num_toString coordinateX ++ ", "
                 ++ num_toString coordinateY ++ ", "))
      (object_polygon object) "" in
  stripTrailingSeparator coordinateString.

(** The text between the parentheses of [PoolVector2Array( ... )] in the two
    rectangle builders. *)
Definition rectangleCoordinateString (object : MapObject) : string :=
  let topLeft := (object_x object, object_y object) in
  let topRight :=
    (num_add (object_x object) (object_width object), object_y object) in
  let bottomRight :=
    (num_add (object_x object) (object_width object),
     num_add (object_y object) (object_height object)) in
  let bottomLeft :=
    (object_x object, num_add (object_y object) (object_height object)) in
  num_toString (fst topLeft) ++ ", " ++ num_toString (snd topLeft) ++ ", " ++
  num_toString (fst topRight) ++ ", " ++ num_toString (snd topRight) ++ ", " ++
  num_toString (fst bottomRight) ++ ", " ++
  num_toString (snd bottomRight) ++ ", " ++
  num_toString (fst bottomLeft) ++ ", " ++ num_toString (snd bottomLeft).

Definition collisionHeader (id : Z) : string :=
  "[sub_resource type=" ++ dq ++ "ConvexPolygonShape2D" ++ dq ++ " id="
  ++ showZ id ++ "]" ++ nl.

Definition navigationHeader (id : Z) : string :=
  "[sub_resource type=" ++ dq ++ "NavigationPolygon" ++ dq ++ " id="
  ++ showZ id ++ "]" ++ nl.

Definition getCollisionShapePolygon (id : Z) (object : MapObject) : string :=
  collisionHeader id ++
  "points = PoolVector2Array( " ++ polygonCoordinateString object ++ " )"
  ++ nl ++ nl.

Definition getCollisionShapeRectangle (id : Z) (object : MapObject) : string :=
  collisionHeader id ++
  "points = PoolVector2Array( " ++ rectangleCoordinateString object ++ " )"
  ++ nl ++ nl.

(** [object.polygon.map((_value, index) => index)]. *)
Definition polygonIndices (object : MapObject) : list Z :=
  map Z.of_nat (seq 0 (List.length (object_polygon object))).

Definition getNavigationShapePolygon (id : Z) (object : MapObject) : string :=
  navigationHeader id ++
  "vertices = PoolVector2Array( " ++ polygonCoordinateString object ++ " )"
  ++ nl ++
  "polygons = [ PoolIntArray ( "
  ++ join ", " (map showZ (polygonIndices object)) ++ " ) ]" ++ nl ++ nl.

Definition getNavigationShapeRectangle (id : Z) (object : MapObject)
    : string :=
  navigationHeader id ++
  "vertices = PoolVector2Array( " ++ rectangleCoordinateString object ++ " )"
  ++ nl ++
  "polygons = [ PoolIntArray( 0, 1, 2, 3 ) ]" ++ nl ++ nl.

(** *** Accumulating methods *)

Definition exportShapes (tile : Tile) (autotileCoordinates : Coord)
    (isOneWay : bool) (e : GodotTilesetExporter) : GodotTilesetExporter :=
  let e1 :=
    if String.eqb (firstShapeID e) ""
    then set_firstShapeID ("SubResource( " ++ showZ (tile_id tile) ++ " )") e
    else e in
  set_shapes
    (shapes e1 ++ getShapesTemplate autotileCoordinates isOneWay (tile_id tile))
    e1.

Definition exportNavigationShape (id : Z) (autotileCoordinates : Coord)
    (e : GodotTilesetExporter) : GodotTilesetExporter :=
  set_navpolyMap
    (navpolyMap e ++
     ["Vector2( " ++ showZ (coord_x autotileCoordinates) ++ ", "
        ++ showZ (coord_y autotileCoordinates) ++ " )";
      "SubResource( " ++ showZ id ++ " )"])
    e.

Definition hasPolygon (object : MapObject) : bool :=
  (0 <? List.length (object_polygon object))%nat.

Definition hasExtent (object : MapObject) : bool :=
  num_positive (object_width object) && num_positive (object_height object).

Definition exportCollisions (object : MapObject) (tile : Tile)
    (autotileCoordinates : Coord) (e : GodotTilesetExporter)
    : GodotTilesetExporter :=
  let isOneWay := String.eqb (object_type object) "one-way" in
  if hasPolygon object then
    exportShapes tile autotileCoordinates isOneWay
      (set_shapesResources
         (shapesResources e ++ getCollisionShapePolygon (tile_id tile) object)
         e)
  else if hasExtent object then
    exportShapes tile autotileCoordinates isOneWay
      (set_shapesResources
         (shapesResources e ++ getCollisionShapeRectangle (tile_id tile) object)
         e)
  else e.

Definition exportNavigations (object : MapObject) (id : Z)
    (autotileCoordinates : Coord) (e : GodotTilesetExporter)
    : GodotTilesetExporter :=
  if hasPolygon object then
    exportNavigationShape id autotileCoordinates
      (set_shapesResources
         (shapesResources e ++ getNavigationShapePolygon id object) e)
  else if hasExtent object then
    exportNavigationShape id autotileCoordinates
      (set_shapesResources
         (shapesResources e ++ getNavigationShapeRectangle id object) e)
  else e.

(** *** The tile loop *)

(** The variables of [iterateTiles] that change while it runs: the exporter
    itself, the host's record of warnings, the navigation identifier counter
    and the grid coordinate. *)
Record IterState : Type := {
  this : GodotTilesetExporter;
  host : list HostEvent;
  minNavId : Z;
  autotileCoordinates : Coord
}.

(** [tiles.reduce((id, tile) => Math.max(id, tile.id), 0)]. *)
Definition initialNavId (ts : list Tile) : Z :=
  fold_left (fun id tile => Z.max id (tile_id tile)) ts 0.

(** The column test at the head of the loop body. *)
Definition wrapColumn (tilesetColumns : Z) (c : Coord) : Coord :=
  if (coord_x c + 1) >? tilesetColumns
  then {| coord_x := 0; coord_y := coord_y c + 1 |}
  else c.

Definition zIndexWarning (tile : Tile) (zIndex : string) : string :=
  "Skipping export of godot:z_index on tile with id " ++ showZ (tile_id tile)
  ++ " because it can not be converted to float. value: " ++ zIndex.

(** The [godot:z_index] block of the loop body. *)
Definition exportZIndex (tile : Tile) (st : IterState) : IterState :=
  match tile_z_index tile with
  | None => st
  | Some zIndex =>
      let zIndexFloat := parseFloat zIndex in
      if num_isNaN zIndexFloat then
        {| this := this st;
           host := host st ++ [Warn (zIndexWarning tile zIndex)];
           minNavId := minNavId st;
           autotileCoordinates := autotileCoordinates st |}
      else
        {| this :=
             set_zIndexMap
               (zIndexMap (this st) ++
                [(coord_x (autotileCoordinates st),
                  coord_y (autotileCoordinates st), zIndexFloat)])
               (this st);
           host := host st;
           minNavId := minNavId st;
           autotileCoordinates := autotileCoordinates st |}
  end.

(** The body of the inner loop, for one object of the tile. *)
Definition exportObject (tile : Tile) (st : IterState) (object : MapObject)
    : IterState :=
  if String.eqb (object_type object) "navigation" then
    let id := minNavId st + 1 in
    {| this := exportNavigations object id (autotileCoordinates st) (this st);
       host := host st;
       minNavId := id;
       autotileCoordinates := autotileCoordinates st |}
  else
    {| this := exportCollisions object tile (autotileCoordinates st) (this st);
       host := host st;
       minNavId := minNavId st;
       autotileCoordinates := autotileCoordinates st |}.

Definition exportObjects (tile : Tile) (st : IterState) : IterState :=
  match tile_objectGroup tile with
  | None => st
  | Some tileObjects => fold_left (exportObject tile) tileObjects st
  end.

(** [autotileCoordinates.x] set to 0 and [y] advanced when the column test
    holds. *)
Definition enterTile (st : IterState) : IterState :=
  {| this := this st;
     host := host st;
     minNavId := minNavId st;
     autotileCoordinates :=
       wrapColumn (getTilesetColumns (tileset (this st)))
                  (autotileCoordinates st) |}.

(** [autotileCoordinates.x += 1]. *)
Definition leaveTile (st : IterState) : IterState :=
  {| this := this st;
     host := host st;
     minNavId := minNavId st;
     autotileCoordinates :=
       {| coord_x := coord_x (autotileCoordinates st) + 1;
          coord_y := coord_y (autotileCoordinates st) |} |}.

(** The body of the outer loop, for one tile. *)
Definition exportTile (st : IterState) (tile : Tile) : IterState :=
  leaveTile (exportObjects tile (exportZIndex tile (enterTile st))).

Definition startIteration (e : GodotTilesetExporter) (h : list HostEvent)
    : IterState :=
  {| this := e;
     host := h;
     minNavId := initialNavId (tiles (tileset e));
     autotileCoordinates := {| coord_x := 0; coord_y := 0 |} |}.

(** The state when the loop has gone through the tiles [ts]. *)
Definition runTiles (e : GodotTilesetExporter) (h : list HostEvent)
    (ts : list Tile) : IterState :=
  fold_left exportTile ts (startIteration e h).

Definition iterateTiles (e : GodotTilesetExporter) (h : list HostEvent)
    : GodotTilesetExporter * list HostEvent :=
  let st := runTiles e h (tiles (tileset e)) in
  (set_shapes (stripTrailingSeparator (shapes (this st))) (this st), host st).

(** *** Rendering and writing *)

Definition renderZIndexItem (item : Z * Z * num) : string :=
  let '(x, y, z) := item in
  "Vector3( " ++ join ", " [showZ x; showZ y; num_toString z] ++ " )".

Definition getTilesetTemplate (e : GodotTilesetExporter) : string :=
  let ts := tileset e in
  "[gd_resource type=" ++ dq ++ "TileSet" ++ dq ++ " load_steps=3 format=2]"
    ++ nl ++
  nl ++
  "[ext_resource path=" ++ dq ++ "res://" ++ spriteImagePath e ++ dq
    ++ " type=" ++ dq ++ "Texture" ++ dq ++ " id=1]" ++ nl ++
  nl ++
  shapesResources e ++ "[resource]" ++ nl ++
  "0/name = " ++ dq ++ tileset_name ts ++ " 0" ++ dq ++ nl ++
  "0/texture = ExtResource( 1 )" ++ nl ++
  "0/tex_offset = Vector2( 0, 0 )" ++ nl ++
  "0/modulate = Color( 1, 1, 1, 1 )" ++ nl ++
  "0/region = Rect2( " ++ showZ (margin ts) ++ ", " ++ showZ (margin ts)
    ++ ", " ++ showZ (imageWidth ts - margin ts)
    ++ ", " ++ showZ (imageHeight ts - margin ts) ++ " )" ++ nl ++
  "0/tile_mode = 2" ++ nl ++
  "0/autotile/icon_coordinate = Vector2( 0, 0 )" ++ nl ++
  "0/autotile/tile_size = Vector2( " ++ showZ (tileWidth ts) ++ ", "
    ++ showZ (tileHeight ts) ++ " )" ++ nl ++
  "0/autotile/spacing = " ++ showZ (tileSpacing ts) ++ nl ++
  "0/autotile/occluder_map = [  ]" ++ nl ++
  "0/autotile/navpoly_map = [ " ++ join ", " (navpolyMap e) ++ " ]" ++ nl ++
  "0/autotile/priority_map = [  ]" ++ nl ++
  "0/autotile/z_index_map = [ "
    ++ join ", " (map renderZIndexItem (zIndexMap e)) ++ " ]" ++ nl ++
  "0/occluder_offset = Vector2( 0, 0 )" ++ nl ++
  "0/navigation_offset = Vector2( 0, 0 )" ++ nl ++
  "0/shape_offset = Vector2( 0, 0 )" ++ nl ++
  "0/shape_transform = Transform2D( 1, 0, 0, 1, 0, 0 )" ++ nl ++
  "0/shape = " ++ firstShapeID e ++ nl ++
  "0/shape_one_way = false" ++ nl ++
  "0/shape_one_way_margin = 1.0" ++ nl ++
  "0/shapes = [ " ++ shapes e ++ " ]" ++ nl ++
  "0/z_index = 0" ++ nl.

(** A [TextFile] opened on [fileName], written once and committed. *)
Definition writeToFile (e : GodotTilesetExporter) (h : list HostEvent)
    : list HostEvent :=
  let tilesetTemplate := getTilesetTemplate e in
  h ++ [FileCommit (fileName e) tilesetTemplate].

(** The method [write] of the exporter. *)
Definition write (e : GodotTilesetExporter) (h : list HostEvent)
    : GodotTilesetExporter * list HostEvent :=
  let (e1, h1) := iterateTiles e h in
  let h2 := writeToFile e1 h1 in
  (e1, (h2 ++ [Log ("Tileset exported successfully to " ++ fileName e1)])%list).

(** [customTilesetFormat.write]: a new exporter for every call. *)
Definition customTilesetFormat_write (ts : Tileset) (file : string)
    (h : list HostEvent) : list HostEvent :=
  let exporter := constructor ts file in
  snd (write exporter h).

(** The text rendered by one export of [ts] to [file]. *)
Definition renderedDocument (ts : Tileset) (file : string) : string :=
  getTilesetTemplate (fst (iterateTiles (constructor ts file) [])).

End Exporter.

(** ** Observations on the exporter *)

(** Definitions the properties are stated with: the specification's own
    wording of a vertex list, and what can be observed of a run of the
    loop. *)
Section Observations.

Context {N : JSNumber}.
Variable getTilesetColumns : Tileset -> Z.

(** *** Vertex lists of the specification *)

(** The polygon block of the specification: the object's anchor added to
    each relative point, in the original order. *)
Definition absoluteVertices (object : MapObject) : list (num * num) :=
  map (fun p => (num_add (object_x object) (point_x p),
                 num_add (object_y object) (point_y p)))
      (object_polygon object).

(** The rectangle block of the specification: top-left, top-right,
    bottom-right, bottom-left. *)
Definition rectangleCorners (object : MapObject) : list (num * num) :=
  let x := object_x object in
  let y := object_y object in
  let w := object_width object in
  let h := object_height object in
  [ (x, y); (num_add x w, y); (num_add x w, num_add y h); (x, num_add y h) ].

(** A vertex list as it is printed: x then y of every vertex, in order,
    with [", "] between two numbers and nothing after the last one. *)
Definition renderVertices (vs : list (num * num)) : string :=
  join ", "
    (flat_map (fun v => [num_toString (fst v); num_toString (snd v)]) vs).

(** *** What an object builds *)

(** Whether an object builds a shape at all. *)
Definition buildsShape (object : MapObject) : bool :=
  hasPolygon object || hasExtent object.

(** The block a collision object adds to the shape resources. *)
Definition collisionBlock (id : Z) (object : MapObject) : string :=
  if hasPolygon object then getCollisionShapePolygon id object
  else getCollisionShapeRectangle id object.

(** The text between the parentheses of a collision block. *)
Definition collisionPoints (object : MapObject) : string :=
  if hasPolygon object then polygonCoordinateString object
  else rectangleCoordinateString object.

(** The block a navigation object adds to the shape resources. *)
Definition navigationBlock (id : Z) (object : MapObject) : string :=
  if hasPolygon object then getNavigationShapePolygon id object
  else getNavigationShapeRectangle id object.

(** *** The calls of the loop *)

(** The objects of a tile, none when it has no object group. *)
Definition objectsOf (tile : Tile) : list MapObject :=
  match tile_objectGroup tile with
  | None => []
  | Some tileObjects => tileObjects
  end.

(** The calls of the inner loop for one tile: every object with the state
    it is exported in. *)
Fixpoint objectCalls (tile : Tile) (st : IterState) (objects : list MapObject)
    : list (IterState * MapObject) :=
  match objects with
  | [] => []
  | object :: rest =>
      (st, object) :: objectCalls tile (exportObject tile st object) rest
  end.

(** The calls of the whole loop, in generation order: tile after tile, and
    object after object within a tile. *)
Fixpoint tileCalls (st : IterState) (ts : list Tile)
    : list (IterState * MapObject) :=
  match ts with
  | [] => []
  | tile :: rest =>
      (objectCalls tile (exportZIndex tile (enterTile getTilesetColumns st))
         (objectsOf tile)
       ++ tileCalls (exportTile getTilesetColumns st tile) rest)%list
  end.

(** Whether a call goes to [exportNavigations]. *)
Definition isNavigation (call : IterState * MapObject) : bool :=
  String.eqb (object_type (snd call)) "navigation".

(** The identifier a navigation call hands to [exportNavigations]. *)
Definition callId (call : IterState * MapObject) : Z :=
  minNavId (fst call) + 1.

(** The identifiers taken by navigation objects, in generation order. *)
Definition navigationIds (calls : list (IterState * MapObject)) : list Z :=
  map callId (filter isNavigation calls).

(** The identifiers of the navigation shapes that are built. *)
Definition navigationShapeIds (calls : list (IterState * MapObject))
    : list Z :=
  map callId
      (filter (fun call => isNavigation call && buildsShape (snd call)) calls).

(** [n] consecutive identifiers after [start]. *)
Fixpoint countFrom (start : Z) (n : nat) : list Z :=
  match n with
  | O => []
  | S k => (start + 1) :: countFrom (start + 1) k
  end.

(** How many of the objects are of type [navigation]. *)
Definition navigationCount (objects : list MapObject) : nat :=
  List.length
    (filter (fun o => String.eqb (object_type o) "navigation") objects).

(** The specification's seed: the largest tile id, 0 without tiles. *)
Definition maxTileId (ts : list Tile) : Z :=
  match map tile_id ts with
  | [] => 0
  | id :: ids => fold_left Z.max ids id
  end.

(** *** What a call or a tile contributes *)

(** The two navigation-map entries of a call, none when the call is not a
    navigation call or builds nothing. *)
Definition navigationEntries (call : IterState * MapObject) : list string :=
  if isNavigation call && buildsShape (snd call) then
    [ ("Vector2( " ++ showZ (coord_x (autotileCoordinates (fst call))) ++ ", "
       ++ showZ (coord_y (autotileCoordinates (fst call))) ++ " )")%string;
      ("SubResource( " ++ showZ (callId call) ++ " )")%string ]
  else [].

(** What one call of the inner loop adds to the shape resources: nothing
    when no shape is built, a navigation block under the identifier taken
    from the counter, or a collision block under the id of the tile. *)
Definition resourceBlock (tile : Tile) (call : IterState * MapObject)
    : string :=
  if buildsShape (snd call) then
    if isNavigation call then navigationBlock (callId call) (snd call)
    else (collisionHeader (tile_id tile) ++ "points = PoolVector2Array( "
          ++ collisionPoints (snd call) ++ " )" ++ nl ++ nl)%string
  else ""%string.

(** What one call of the inner loop adds to the shape assignments: an entry
    for a collision shape that is built, nothing otherwise. *)
Definition shapeAssignment (tile : Tile) (call : IterState * MapObject)
    : string :=
  if negb (isNavigation call) && buildsShape (snd call) then
    getShapesTemplate (autotileCoordinates (fst call))
      (String.eqb (object_type (snd call)) "one-way") (tile_id tile)
  else ""%string.

(** What a tile contributes to the z-index map when it stands at [c]. *)
Definition zIndexEntries (tile : Tile) (c : Coord) : list (Z * Z * num) :=
  match tile_z_index tile with
  | None => []
  | Some zIndex =>
      if num_isNaN (parseFloat zIndex) then []
      else [(coord_x c, coord_y c, parseFloat zIndex)]
  end.

(** What a tile makes the host record. *)
Definition zIndexWarnings (tile : Tile) : list HostEvent :=
  match tile_z_index tile with
  | None => []
  | Some zIndex =>
      if num_isNaN (parseFloat zIndex)
      then [Warn (zIndexWarning tile zIndex)] else []
  end.

(** *** Invariants and relations *)

(** After [n] tiles the coordinate counts [n] cells along the rows of a
    grid of [columns] columns, with [x] allowed to stand one past the last
    column until the next tile is entered. *)
Definition gridInvariant (columns n : Z) (c : Coord) : Prop :=
  coord_x c + columns * coord_y c = n /\ 0 <= coord_x c <= columns.


(** Two exporters that agree on everything the template reads. *)
Definition sameText (a b : GodotTilesetExporter) : Prop :=
  tileset a = tileset b
  /\ spriteImagePath a = spriteImagePath b
  /\ shapesResources a = shapesResources b
  /\ shapes a = shapes b
  /\ navpolyMap a = navpolyMap b
  /\ zIndexMap a = zIndexMap b
  /\ firstShapeID a = firstShapeID b.

(** Two loop states that agree on everything but the destination and the
    host's record. *)
Definition sameProgress (s t : IterState) : Prop :=
  sameText (this s) (this t)
  /\ minNavId s = minNavId t
  /\ autotileCoordinates s = autotileCoordinates t.

(** *** Calls with their tile *)

(** The calls of the whole loop, each with the index and the tile it
    belongs to. *)
Fixpoint taggedCalls (index : nat) (st : IterState) (ts : list Tile)
    : list (nat * Tile * (IterState * MapObject)) :=
  match ts with
  | [] => []
  | tile :: rest =>
      (map (fun call => (index, tile, call))
           (objectCalls tile (exportZIndex tile (enterTile getTilesetColumns st))
              (objectsOf tile))
       ++ taggedCalls (S index) (exportTile getTilesetColumns st tile) rest)%list
  end.

(** What a tagged call adds to the shape resources. *)
Definition taggedBlock (entry : nat * Tile * (IterState * MapObject))
    : string :=
  resourceBlock (snd (fst entry)) (snd entry).

(** What a tagged call adds to the shape assignments. *)
Definition taggedAssignment (entry : nat * Tile * (IterState * MapObject))
    : string :=
  shapeAssignment (snd (fst entry)) (snd entry).

(** The cell of index [index] on a grid of [columns] columns, rows first. *)
Definition rowMajor (columns : Z) (index : nat) : Coord :=
  {| coord_x := Z.of_nat index mod columns;
     coord_y := Z.of_nat index / columns |}.

(** The tiles with their indices from [first] on. *)
Definition indexedFrom (first : nat) (ts : list Tile) : list (nat * Tile) :=
  combine (seq first (List.length ts)) ts.

(** The coordinate the tile of index [i] is exported at. *)
Definition coordinateOfTile (e : GodotTilesetExporter) (h : list HostEvent)
    (i : nat) : Coord :=
  autotileCoordinates
    (enterTile getTilesetColumns
       (runTiles getTilesetColumns e h (firstn i (tiles (tileset e))))).

(** Whether a tile carries the [godot:z_index] property. *)
Definition hasZIndex (tile : Tile) : bool :=
  match tile_z_index tile with
  | Some _ => true
  | None => false
  end.

(** A piece of text that stands somewhere in another. *)
Definition occursIn (piece text : string) : Prop :=
  exists before after, text = (before ++ piece ++ after)%string.

(** An object with another [type] and the same geometry. *)
Definition withType (type : string) (object : MapObject) : MapObject :=
  {| object_type := type;
     object_x := object_x object;
     object_y := object_y object;
     object_width := object_width object;
     object_height := object_height object;
     object_polygon := object_polygon object |}.

(** *** The emitted text, written out *)

(** The shape an object gives, in the words of the specification: its
    polygon when it has one, else its rectangle when width and height are
    positive, else nothing. *)
Inductive Shape : Type :=
| PolygonShape (vertices : list (num * num))
| RectangleShape (corners : list (num * num)).

Definition shapeOf (object : MapObject) : option Shape :=
  match object_polygon object with
  | _ :: _ => Some (PolygonShape (absoluteVertices object))
  | [] =>
      if num_positive (object_width object)
         && num_positive (object_height object)
      then Some (RectangleShape (rectangleCorners object))
      else None
  end.

Definition verticesOf (shape : Shape) : list (num * num) :=
  match shape with
  | PolygonShape vertices => vertices
  | RectangleShape corners => corners
  end.

(** A collision block as it stands in the document. *)
Definition collisionBlockText (id : Z) (shape : Shape) : string :=
  ("[sub_resource type=" ++ dq ++ "ConvexPolygonShape2D" ++ dq ++ " id="
   ++ showZ id ++ "]" ++ nl
   ++ "points = PoolVector2Array( " ++ renderVertices (verticesOf shape)
   ++ " )" ++ nl ++ nl)%string.

(** The index list of a navigation block: one index per vertex of a
    polygon, the fixed four of a rectangle. *)
Definition indexListText (shape : Shape) : string :=
  match shape with
  | PolygonShape vertices =>
      ("PoolIntArray ( "
       ++ join ", " (map showZ (map Z.of_nat (seq 0 (List.length vertices))))
       ++ " )")%string
  | RectangleShape _ => "PoolIntArray( 0, 1, 2, 3 )"%string
  end.

(** A navigation block as it stands in the document. *)
Definition navigationBlockText (id : Z) (shape : Shape) : string :=
  ("[sub_resource type=" ++ dq ++ "NavigationPolygon" ++ dq ++ " id="
   ++ showZ id ++ "]" ++ nl
   ++ "vertices = PoolVector2Array( " ++ renderVertices (verticesOf shape)
   ++ " )" ++ nl
   ++ "polygons = [ " ++ indexListText shape ++ " ]" ++ nl ++ nl)%string.

(** A shape assignment as it stands in the [0/shapes] list, with the
    separator that follows it. *)
Definition shapeEntryText (c : Coord) (oneWay : bool) (id : Z) : string :=
  ("{" ++ nl
   ++ dq ++ "autotile_coord" ++ dq ++ ": Vector2( "
   ++ showZ (coord_x c) ++ ", " ++ showZ (coord_y c) ++ " )," ++ nl
   ++ dq ++ "one_way" ++ dq ++ ": " ++ showBool oneWay ++ "," ++ nl
   ++ dq ++ "one_way_margin" ++ dq ++ ": 1.0," ++ nl
   ++ dq ++ "shape" ++ dq ++ ": SubResource( " ++ showZ id ++ " )," ++ nl
   ++ dq ++ "shape_transform" ++ dq ++ ": Transform2D( 1, 0, 0, 1, 0, 0 )"
   ++ nl ++ "}, ")%string.

(** The two entries of a navigation shape in the navigation map. *)
Definition navigationPairText (c : Coord) (id : Z) : list string :=
  [ ("Vector2( " ++ showZ (coord_x c) ++ ", " ++ showZ (coord_y c) ++ " )")
      %string;
    ("SubResource( " ++ showZ id ++ " )")%string ].

(** The identifier the block of a call must carry: the one taken from the
    counter for a navigation object, the id of the tile otherwise. *)
Definition blockId (tile : Tile) (call : IterState * MapObject) : Z :=
  if isNavigation call then minNavId (fst call) + 1 else tile_id tile.

(** What a call must add to the shape resources. *)
Definition expectedBlock (tile : Tile) (call : IterState * MapObject)
    : string :=
  match shapeOf (snd call) with
  | None => ""%string
  | Some shape =>
      if isNavigation call then navigationBlockText (blockId tile call) shape
      else collisionBlockText (blockId tile call) shape
  end.

(** What a call must add to the shape assignments when its tile stands at
    [c]. *)
Definition expectedAssignment (tile : Tile) (c : Coord)
    (call : IterState * MapObject) : string :=
  match shapeOf (snd call) with
  | None => ""%string
  | Some _ =>
      if isNavigation call then ""%string
      else shapeEntryText c (String.eqb (object_type (snd call)) "one-way")
             (blockId tile call)
  end.

(** What a call must add to the navigation map when its tile stands at
    [c]. *)
Definition expectedNavigationPair (tile : Tile) (c : Coord)
    (call : IterState * MapObject) : list string :=
  match shapeOf (snd call) with
  | None => []
  | Some _ =>
      if isNavigation call then navigationPairText c (blockId tile call)
      else []
  end.

(** Whether a call emits a block, and of which kind. *)
Definition emitsNavigation (call : IterState * MapObject) : bool :=
  isNavigation call
  && match shapeOf (snd call) with Some _ => true | None => false end.

Definition emitsCollision (call : IterState * MapObject) : bool :=
  negb (isNavigation call)
  && match shapeOf (snd call) with Some _ => true | None => false end.

(** What a tagged call must add, its tile standing where the call runs. *)
Definition taggedExpectedBlock (entry : nat * Tile * (IterState * MapObject))
    : string :=
  expectedBlock (snd (fst entry)) (snd entry).

Definition taggedExpectedAssignment
    (entry : nat * Tile * (IterState * MapObject)) : string :=
  expectedAssignment (snd (fst entry))
    (autotileCoordinates (fst (snd entry))) (snd entry).

Definition taggedExpectedPair (entry : nat * Tile * (IterState * MapObject))
    : list string :=
  expectedNavigationPair (snd (fst entry))
    (autotileCoordinates (fst (snd entry))) (snd entry).

(** The identifier the block of a tagged call must carry. *)
Definition taggedBlockId (entry : nat * Tile * (IterState * MapObject)) : Z :=
  blockId (snd (fst entry)) (snd entry).

(** The identifiers the navigation blocks of the calls must carry, and
    those of the collision blocks, in generation order. *)
Definition navigationBlockIds
    (entries : list (nat * Tile * (IterState * MapObject))) : list Z :=
  map taggedBlockId (filter (fun entry => emitsNavigation (snd entry)) entries).

Definition collisionBlockIds
    (entries : list (nat * Tile * (IterState * MapObject))) : list Z :=
  map taggedBlockId (filter (fun entry => emitsCollision (snd entry)) entries).

End Observations.

(** ** Facts about printed text *)

Module TextFacts.

Lemma endsClean_append (a b : string) :
  endsClean b = true -> endsClean (a ++ b) = true.
Proof.
  intros Hb. induction a as [|c a IH]; simpl; [exact Hb|].
  destruct (a ++ b) eqn:E; [|exact IH].
  destruct a; simpl in E; [subst b; discriminate Hb | discriminate E].
Qed.

Lemma endsClean_digits (d : Decimal.uint) :
  endsClean (NilZero.string_of_uint d) = true.
Proof.
  assert (H : forall u, u <> Decimal.Nil ->
                        endsClean (NilEmpty.string_of_uint u) = true).
  { induction u as [|u IH|u IH|u IH|u IH|u IH|u IH|u IH|u IH|u IH|u IH];
      intros Hu; [congruence|..];
      (destruct u; [reflexivity|..];
       simpl NilEmpty.string_of_uint in *;
       simpl endsClean; apply IH; discriminate). }
  destruct d; [reflexivity|..]; apply H; discriminate.
Qed.

Lemma append_assoc (a b c : string) : ((a ++ b) ++ c = a ++ (b ++ c))%string.
Proof.
  induction a as [|x a IH]; simpl; [reflexivity | now rewrite IH].
Qed.

Lemma append_empty_r (a : string) : (a ++ "")%string = a.
Proof.
  induction a as [|x a IH]; simpl; [reflexivity | now rewrite IH].
Qed.

Lemma allWhitespace_append (a b : string) :
  allWhitespace (a ++ b) = allWhitespace a && allWhitespace b.
Proof.
  induction a as [|x a IH]; simpl; [reflexivity|].
  now rewrite IH, andb_assoc.
Qed.

Lemma endsClean_not_whitespace (s : string) :
  endsClean s = true -> allWhitespace s = false.
Proof.
  induction s as [|c r IH]; simpl; [discriminate|].
  destruct r as [|d r'].
  - unfold isSeparatorChar. intros H. apply negb_true_iff in H.
    apply orb_false_iff in H. destruct H as [_ H]. now rewrite H.
  - intros H. rewrite (IH H). apply andb_false_r.
Qed.


(** The replacement removes exactly the separator that follows a clean
    text. *)
Lemma strip_after_clean (s : string) :
  endsClean s = true -> stripTrailingSeparator (s ++ ", ") = s.
Proof.
  induction s as [|c r IH]; [discriminate|].
  destruct r as [|d r'].
  - cbn [endsClean]. unfold isSeparatorChar. intros H.
    apply negb_true_iff in H. apply orb_false_iff in H. destruct H as [H _].
    change ((String c "" ++ ", ")%string) with (String c ", ").
    cbn [stripTrailingSeparator]. rewrite H. reflexivity.
  - intros H. change (endsClean (String d r') = true) in H.
    change ((String c (String d r') ++ ", ")%string)
      with (String c (String d r' ++ ", ")).
    cbn [stripTrailingSeparator].
    rewrite allWhitespace_append, (endsClean_not_whitespace _ H).
    rewrite andb_false_l, andb_false_r. now rewrite (IH H).
Qed.

Lemma strip_without_match (s : string) :
  matchesTrailingSeparator s = false -> stripTrailingSeparator s = s.
Proof.
  induction s as [|c r IH]; [reflexivity|].
  cbn [matchesTrailingSeparator stripTrailingSeparator]. intros H.
  apply orb_false_iff in H. destruct H as [H1 H2].
  now rewrite H1, (IH H2).
Qed.


(** Joining clean pieces gives a clean text. *)
Lemma join_endsClean (l : list string) :
  l <> [] -> Forall (fun s => endsClean s = true) l ->
  endsClean (join ", " l) = true.
Proof.
  induction l as [|x r IH]; [congruence|].
  intros _ H. inversion H as [|? ? Hx Hr]; subst.
  destruct r as [|y r']; [exact Hx|].
  cbn [join]. apply endsClean_append, (endsClean_append ", ").
  apply IH; [discriminate | exact Hr].
Qed.

(** Appending a separator after every piece, then removing the last one, is
    joining the pieces. *)
Lemma concat_separated (l : list string) :
  l <> [] ->
  Text.concat (map (fun s => s ++ ", ")%string l) = (join ", " l ++ ", ")%string.
Proof.
  induction l as [|x r IH]; [congruence|]. intros _.
  destruct r as [|y r'].
  - cbn. now rewrite append_empty_r.
  - change (Text.concat (map (fun s => s ++ ", ")%string (x :: y :: r')))
      with ((x ++ ", ") ++
            Text.concat (map (fun s => s ++ ", ")%string (y :: r')))%string.
    rewrite IH by discriminate. cbn [join].
    now rewrite !append_assoc.
Qed.

Lemma strip_concat_separated (l : list string) :
  Forall (fun s => endsClean s = true) l ->
  stripTrailingSeparator (Text.concat (map (fun s => s ++ ", ")%string l))
  = join ", " l.
Proof.
  intros H. destruct l as [|x r]; [reflexivity|].
  rewrite concat_separated by discriminate.
  apply strip_after_clean, join_endsClean; [discriminate | exact H].
Qed.

End TextFacts.

(** ** A number model to run the exporter on *)

(** Decimal numbers with exact arithmetic: the values the host's numbers take
    on integers and on short decimal fractions, where binary64 addition of
    the inputs used below is exact as well.  [parseFloat] follows the grammar
    of the standard (leading whitespace, sign, [Infinity], digits, fraction,
    exponent, and [NaN] when no prefix is a number); printing is positional,
    as the host prints numbers between 1e-6 and 1e21. *)
Module DecimalNumber.

Inductive dnum : Type :=
| NaN
| Infinity (negative : bool)
| Finite (mantissa : Z) (scale : nat).

(** [Finite m k] stands for [m / 10^k]; trailing zeros of the fraction are
    dropped. *)
Fixpoint normalise (m : Z) (scale : nat) : dnum :=
  match scale with
  | O => Finite m O
  | S k => if m mod 10 =? 0 then normalise (m / 10) k else Finite m scale
  end.

Definition add (a b : dnum) : dnum :=
  match a, b with
  | NaN, _ | _, NaN => NaN
  | Infinity s, Infinity t => if Bool.eqb s t then Infinity s else NaN
  | Infinity s, Finite _ _ => Infinity s
  | Finite _ _, Infinity t => Infinity t
  | Finite m1 k1, Finite m2 k2 =>
      let k := Nat.max k1 k2 in
      normalise (m1 * 10 ^ Z.of_nat (k - k1) + m2 * 10 ^ Z.of_nat (k - k2)) k
  end.

Definition positive (a : dnum) : bool :=
  match a with
  | NaN => false
  | Infinity s => negb s
  | Finite m _ => 0 <? m
  end.

Definition isNaN (a : dnum) : bool :=
  match a with
  | NaN => true
  | _ => false
  end.

Definition showNat (n : Z) : string :=
  NilZero.string_of_uint (N.to_uint (Z.to_N n)).

Fixpoint zeros (n : nat) : string :=
  match n with
  | O => EmptyString
  | S k => String "0" (zeros k)
  end.

Definition toString (a : dnum) : string :=
  match a with
  | NaN => "NaN"
  | Infinity s => (if s then "-" else "") ++ "Infinity"
  | Finite m k =>
      let unit := 10 ^ Z.of_nat k in
      let whole := showNat (Z.abs m / unit) in
      let fraction := showNat (Z.abs m mod unit) in
      (if m <? 0 then "-" else "") ++ whole ++
      match k with
      | O => ""
      | S _ => "." ++ zeros (k - String.length fraction) ++ fraction
      end
  end.

Fixpoint dropWhitespace (s : string) : string :=
  match s with
  | String c r => if isWhitespace c then dropWhitespace r else s
  | EmptyString => s
  end.

Definition digitValue (c : ascii) : option Z :=
  let n := nat_of_ascii c in
  if ((48 <=? n)%nat && (n <=? 57)%nat) then Some (Z.of_nat (n - 48))
  else None.

(** The longest run of digits at the head of [s]: its value after [acc], how
    many digits were read after [count], and the rest of the text. *)
Fixpoint takeDigits (s : string) (acc : Z) (count : nat) : Z * nat * string :=
  match s with
  | String c r =>
      match digitValue c with
      | Some d => takeDigits r (acc * 10 + d) (S count)
      | None => (acc, count, s)
      end
  | EmptyString => (acc, count, s)
  end.

Definition takeSign (s : string) : bool * string :=
  match s with
  | String "-" r => (true, r)
  | String "+" r => (false, r)
  | _ => (false, s)
  end.

(** The exponent part, 0 when there is none or when it has no digit. *)
Definition parseExponent (s : string) : Z :=
  match s with
  | String c r =>
      if Ascii.eqb c "e" || Ascii.eqb c "E" then
        let (negative, r1) := takeSign r in
        let '(v, n, _) := takeDigits r1 0 O in
        match n with
        | O => 0
        | S _ => if negative then - v else v
        end
      else 0
  | EmptyString => 0
  end.

Definition parse (s : string) : dnum :=
  let (negative, s1) := takeSign (dropWhitespace s) in
  if String.prefix "Infinity" s1 then Infinity negative
  else
    let '(whole, nWhole, s2) := takeDigits s1 0 O in
    let '(fraction, nFraction, s3) :=
      match s2 with
      | String "." r => takeDigits r 0 O
      | _ => (0, O, s2)
      end in
    match (nWhole + nFraction)%nat with
    | O => NaN
    | S _ =>
        let m := whole * 10 ^ Z.of_nat nFraction + fraction in
        let m := if negative then - m else m in
        let e := parseExponent s3 in
        if 0 <=? e then normalise (m * 10 ^ e) nFraction
        else normalise m (nFraction + Z.to_nat (- e))
    end.

Lemma toString_endsClean (a : dnum) : endsClean (toString a) = true.
Proof.
  destruct a as [|s|m k]; simpl.
  - reflexivity.
  - destruct s; reflexivity.
  - apply TextFacts.endsClean_append. destruct k.
    + rewrite TextFacts.append_empty_r. apply TextFacts.endsClean_digits.
    + apply TextFacts.endsClean_append.
      apply (TextFacts.endsClean_append "."). apply TextFacts.endsClean_append.
      apply TextFacts.endsClean_digits.
Qed.

#[export] Instance decimalNumber : JSNumber := {|
  num := dnum;
  num_add := add;
  num_positive := positive;
  num_isNaN := isNaN;
  parseFloat := parse;
  num_toString := toString;
  num_toString_endsClean := toString_endsClean
|}.

(** An integer as a number of the model. *)
Definition int (z : Z) : dnum := Finite z O.

End DecimalNumber.

(** Inputs of the examples. *)
Module Examples.

Import DecimalNumber.

Definition point (x y : Z) : Point :=
  {| point_x := int x; point_y := int y |}.

(** The polygon [(0,0),(10,0),(10,10),(0,10)] anchored at (5,5). *)
Definition squarePolygon (type : string) : MapObject :=
  {| object_type := type;
     object_x := int 5; object_y := int 5;
     object_width := int 0; object_height := int 0;
     object_polygon := [point 0 0; point 10 0; point 10 10; point 0 10] |}.

(** The rectangle at (2,3) of width 4 and height 6. *)
Definition rectangle (type : string) : MapObject :=
  {| object_type := type;
     object_x := int 2; object_y := int 3;
     object_width := int 4; object_height := int 6;
     object_polygon := [] |}.

(** An object with neither a polygon nor a width. *)
Definition emptyObject (type : string) : MapObject :=
  {| object_type := type;
     object_x := int 1; object_y := int 1;
     object_width := int 0; object_height := int 8;
     object_polygon := [] |}.

Definition tileWith (id : Z) (zIndex : option string)
    (objects : option (list MapObject)) : Tile :=
  {| tile_id := id; tile_z_index := zIndex; tile_objectGroup := objects |}.

Definition tilesetOf (ts : list Tile) : Tileset :=
  {| tileset_name := "demo";
     tileset_image := "demo.png";
     tileset_projectRoot := None;
     tileset_relativePath := None;
     imageWidth := 32; imageHeight := 32;
     margin := 0; tileWidth := 16; tileHeight := 16; tileSpacing := 0;
     tiles := ts |}.

(** Stand-ins for the two helpers of [utils.mjs]: the image path as it is,
    and the columns an image holds. *)
Definition resPath (_ _ : option string) (image : string) : string := image.

Definition columnsOf (ts : Tileset) : Z :=
  (imageWidth ts + tileSpacing ts - margin ts)
  / (tileWidth ts + tileSpacing ts).

Definition origin : Coord := {| coord_x := 0; coord_y := 0 |}.

End Examples.

(** ** Properties *)

Section ShapeText.

Context {N : JSNumber}.

Lemma fold_left_append {A : Type} (f : A -> string) (l : list A) (a : string) :
  fold_left (fun acc x => acc ++ f x)%string l a
  = (a ++ Text.concat (map f l))%string.
Proof.
  revert a. induction l as [|x r IH]; intros a; cbn [fold_left map].
  - symmetry. apply TextFacts.append_empty_r.
  - rewrite IH. apply TextFacts.append_assoc.
Qed.

Lemma concat_pairs {A : Type} (f g : A -> string) (l : list A) :
  Text.concat (map (fun p => f p ++ ", " ++ g p ++ ", ")%string l)
  = Text.concat (map (fun s => s ++ ", ")%string
                     (flat_map (fun p => [f p; g p]) l)).
Proof.
  induction l as [|x r IH]; [reflexivity|].
  cbn [map flat_map app]. unfold Text.concat in *. cbn [fold_right].
  rewrite IH. now rewrite !TextFacts.append_assoc.
Qed.


(** The text the two polygon builders print is the rendering of the
    specification's absolute vertices. *)
Lemma polygonCoordinateString_spec (object : MapObject) :
  polygonCoordinateString object = renderVertices (absoluteVertices object).
Proof.
  unfold polygonCoordinateString, renderVertices, absoluteVertices.
  rewrite fold_left_append. cbn [String.append].
  rewrite (concat_pairs
             (fun p => num_toString (num_add (object_x object) (point_x p)))
             (fun p => num_toString (num_add (object_y object) (point_y p)))).
  rewrite TextFacts.strip_concat_separated.
  - f_equal. induction (object_polygon object) as [|p r IH];
      [reflexivity | cbn [flat_map map app fst snd]; now rewrite IH].
  - induction (object_polygon object) as [|p r IH]; cbn [flat_map app];
      [constructor|].
    repeat (constructor; [apply num_toString_endsClean|]). exact IH.
Qed.

Lemma rectangleCoordinateString_spec (object : MapObject) :
  rectangleCoordinateString object = renderVertices (rectangleCorners object).
Proof. reflexivity. Qed.


End ShapeText.

Section Accumulators.

Context {N : JSNumber}.

Lemma hasPolygon_true (object : MapObject) :
  object_polygon object <> [] -> hasPolygon object = true.
Proof.
  unfold hasPolygon. destruct (object_polygon object); [congruence|].
  reflexivity.
Qed.

Lemma hasPolygon_false (object : MapObject) :
  object_polygon object = [] -> hasPolygon object = false.
Proof. unfold hasPolygon. now intros ->. Qed.

Lemma exportShapes_shapesResources tile c oneWay e :
  shapesResources (exportShapes tile c oneWay e) = shapesResources e.
Proof. unfold exportShapes. now destruct (String.eqb (firstShapeID e) ""). Qed.

Lemma exportShapes_shapes tile c oneWay e :
  shapes (exportShapes tile c oneWay e)
  = (shapes e ++ getShapesTemplate c oneWay (tile_id tile))%string.
Proof. unfold exportShapes. now destruct (String.eqb (firstShapeID e) ""). Qed.

Lemma exportShapes_navpolyMap tile c oneWay e :
  navpolyMap (exportShapes tile c oneWay e) = navpolyMap e.
Proof. unfold exportShapes. now destruct (String.eqb (firstShapeID e) ""). Qed.

Lemma exportShapes_zIndexMap tile c oneWay e :
  zIndexMap (exportShapes tile c oneWay e) = zIndexMap e.
Proof. unfold exportShapes. now destruct (String.eqb (firstShapeID e) ""). Qed.

Lemma exportShapes_tileset tile c oneWay e :
  tileset (exportShapes tile c oneWay e) = tileset e.
Proof. unfold exportShapes. now destruct (String.eqb (firstShapeID e) ""). Qed.

(** The literal the constructor stores is not the empty text the guard of
    [exportShapes] waits for, so the guard never fires. *)
Lemma exportShapes_firstShapeID tile c oneWay e :
  firstShapeID e = "0" -> firstShapeID (exportShapes tile c oneWay e) = "0".
Proof. unfold exportShapes. intros H. rewrite H. exact H. Qed.

Lemma exportCollisions_builds object tile c e :
  buildsShape object = true ->
  exportCollisions object tile c e
  = exportShapes tile c (String.eqb (object_type object) "one-way")
      (set_shapesResources
         (shapesResources e ++ collisionBlock (tile_id tile) object) e).
Proof.
  unfold buildsShape, exportCollisions, collisionBlock.
  destruct (hasPolygon object); [reflexivity|].
  cbn [orb]. now intros ->.
Qed.

Lemma exportCollisions_skips object tile c e :
  buildsShape object = false -> exportCollisions object tile c e = e.
Proof.
  unfold buildsShape, exportCollisions. intros H.
  apply orb_false_iff in H. destruct H as [-> ->]. reflexivity.
Qed.

Lemma exportNavigations_skips object id c e :
  buildsShape object = false -> exportNavigations object id c e = e.
Proof.
  unfold buildsShape, exportNavigations. intros H.
  apply orb_false_iff in H. destruct H as [-> ->]. reflexivity.
Qed.

Lemma buildsShape_false object :
  object_polygon object = [] ->
  num_positive (object_width object) = false
  \/ num_positive (object_height object) = false ->
  buildsShape object = false.
Proof.
  intros Hp Hwh. unfold buildsShape, hasExtent.
  rewrite (hasPolygon_false _ Hp). cbn [orb].
  destruct Hwh as [-> | ->]; [reflexivity | apply andb_false_r].
Qed.

End Accumulators.

(** *** Polygon and rectangle vertex lists *)

(** C6. For an object with a non-empty polygon, the vertex list both
    polygon builders print is the object's anchor added to every relative
    point, in the original order; this is the text that the collision
    export and the navigation export add to the shape resources. *)
Theorem polygon_vertices_anchor_plus_points
    (N : JSNumber) (object : MapObject) (tile : Tile) (id : Z) (c : Coord)
    (e : GodotTilesetExporter) :
  object_polygon object <> [] ->
  polygonCoordinateString object = renderVertices (absoluteVertices object)
  /\ shapesResources (exportCollisions object tile c e)
     = (shapesResources e ++ collisionHeader (tile_id tile)
        ++ "points = PoolVector2Array( "
        ++ renderVertices (absoluteVertices object) ++ " )" ++ nl ++ nl)%string
  /\ shapesResources (exportNavigations object id c e)
     = (shapesResources e ++ navigationHeader id
        ++ "vertices = PoolVector2Array( "
        ++ renderVertices (absoluteVertices object) ++ " )" ++ nl
        ++ "polygons = [ PoolIntArray ( "
        ++ join ", " (map showZ (polygonIndices object)) ++ " ) ]"
        ++ nl ++ nl)%string.
Proof.
  intros Hp. pose proof (hasPolygon_true object Hp) as Hh.
  split; [apply polygonCoordinateString_spec|]. split.
  - unfold exportCollisions. rewrite Hh, exportShapes_shapesResources.
    cbn [shapesResources set_shapesResources].
    unfold getCollisionShapePolygon.
    now rewrite polygonCoordinateString_spec, ?TextFacts.append_assoc.
  - unfold exportNavigations. rewrite Hh.
    cbn [shapesResources set_shapesResources exportNavigationShape
         set_navpolyMap].
    unfold getNavigationShapePolygon.
    now rewrite polygonCoordinateString_spec, ?TextFacts.append_assoc.
Qed.

(** C7. For a rectangle object (no polygon, positive width and height) the
    point list both rectangle builders print is the four corners, clockwise
    from the top-left one: (x,y), (x+w,y), (x+w,y+h), (x,y+h); this is the
    text that the collision export and the navigation export add to the
    shape resources. *)
Theorem rectangle_corners_clockwise
    (N : JSNumber) (object : MapObject) (tile : Tile) (id : Z) (c : Coord)
    (e : GodotTilesetExporter) :
  object_polygon object = [] ->
  num_positive (object_width object) = true ->
  num_positive (object_height object) = true ->
  rectangleCorners object
  = [ (object_x object, object_y object);
      (num_add (object_x object) (object_width object), object_y object);
      (num_add (object_x object) (object_width object),
       num_add (object_y object) (object_height object));
      (object_x object, num_add (object_y object) (object_height object)) ]
  /\ shapesResources (exportCollisions object tile c e)
     = (shapesResources e ++ collisionHeader (tile_id tile)
        ++ "points = PoolVector2Array( "
        ++ renderVertices (rectangleCorners object) ++ " )" ++ nl ++ nl)%string
  /\ shapesResources (exportNavigations object id c e)
     = (shapesResources e ++ navigationHeader id
        ++ "vertices = PoolVector2Array( "
        ++ renderVertices (rectangleCorners object) ++ " )" ++ nl
        ++ "polygons = [ PoolIntArray( 0, 1, 2, 3 ) ]" ++ nl ++ nl)%string.
Proof.
  intros Hp Hw Hh. pose proof (hasPolygon_false object Hp) as Hn.
  assert (He : hasExtent object = true) by (unfold hasExtent; now rewrite Hw, Hh).
  split; [reflexivity|]. split.
  - unfold exportCollisions. rewrite Hn, He, exportShapes_shapesResources.
    cbn [shapesResources set_shapesResources].
    unfold getCollisionShapeRectangle.
    now rewrite rectangleCoordinateString_spec, ?TextFacts.append_assoc.
  - unfold exportNavigations. rewrite Hn, He.
    cbn [shapesResources set_shapesResources exportNavigationShape
         set_navpolyMap].
    unfold getNavigationShapeRectangle.
    now rewrite rectangleCoordinateString_spec, ?TextFacts.append_assoc.
Qed.

(** The specification's example for C6: the polygon
    [(0,0),(10,0),(10,10),(0,10)] anchored at (5,5) yields the vertices
    (5,5), (15,5), (15,15), (5,15), printed [5, 5, 15, 5, 15, 15, 5, 15]. *)
Lemma polygon_vertices_example :
  let object := Examples.squarePolygon "" in
  let tile := Examples.tileWith 7 None (Some [object]) in
  let e := constructor Examples.resPath (Examples.tilesetOf [tile]) "out.tres" in
  object_polygon object <> []
  /\ absoluteVertices object
     = [ (DecimalNumber.int 5, DecimalNumber.int 5);
         (DecimalNumber.int 15, DecimalNumber.int 5);
         (DecimalNumber.int 15, DecimalNumber.int 15);
         (DecimalNumber.int 5, DecimalNumber.int 15) ]
  /\ (polygonCoordinateString object = "5, 5, 15, 5, 15, 15, 5, 15"
      /\ shapesResources (exportCollisions object tile Examples.origin e)
         = ("[sub_resource type=" ++ dq ++ "ConvexPolygonShape2D" ++ dq
            ++ " id=7]" ++ nl
            ++ "points = PoolVector2Array( 5, 5, 15, 5, 15, 15, 5, 15 )"
            ++ nl ++ nl)%string
      /\ shapesResources (exportNavigations object 8 Examples.origin e)
         = ("[sub_resource type=" ++ dq ++ "NavigationPolygon" ++ dq
            ++ " id=8]" ++ nl
            ++ "vertices = PoolVector2Array( 5, 5, 15, 5, 15, 15, 5, 15 )"
            ++ nl ++ "polygons = [ PoolIntArray ( 0, 1, 2, 3 ) ]"
            ++ nl ++ nl)%string).
Proof.
  intros object tile e.
  assert (Hp : object_polygon object <> []) by discriminate.
  split; [exact Hp|]. split; [reflexivity|].
  exact (polygon_vertices_anchor_plus_points
           DecimalNumber.decimalNumber object tile 8 Examples.origin e Hp).
Defined.

(** The specification's example for C7: the rectangle at (2,3) of width 4
    and height 6 yields the corners (2,3), (6,3), (6,9), (2,9), printed
    [2, 3, 6, 3, 6, 9, 2, 9]. *)
Lemma rectangle_corners_example :
  let object := Examples.rectangle "" in
  let tile := Examples.tileWith 7 None (Some [object]) in
  let e := constructor Examples.resPath (Examples.tilesetOf [tile]) "out.tres" in
  (object_polygon object = []
   /\ num_positive (object_width object) = true
   /\ num_positive (object_height object) = true)
  /\ (rectangleCorners object
      = [ (DecimalNumber.int 2, DecimalNumber.int 3);
          (DecimalNumber.int 6, DecimalNumber.int 3);
          (DecimalNumber.int 6, DecimalNumber.int 9);
          (DecimalNumber.int 2, DecimalNumber.int 9) ]
      /\ shapesResources (exportCollisions object tile Examples.origin e)
         = ("[sub_resource type=" ++ dq ++ "ConvexPolygonShape2D" ++ dq
            ++ " id=7]" ++ nl
            ++ "points = PoolVector2Array( 2, 3, 6, 3, 6, 9, 2, 9 )"
            ++ nl ++ nl)%string
      /\ shapesResources (exportNavigations object 8 Examples.origin e)
         = ("[sub_resource type=" ++ dq ++ "NavigationPolygon" ++ dq
            ++ " id=8]" ++ nl
            ++ "vertices = PoolVector2Array( 2, 3, 6, 3, 6, 9, 2, 9 )"
            ++ nl ++ "polygons = [ PoolIntArray( 0, 1, 2, 3 ) ]"
            ++ nl ++ nl)%string).
Proof.
  intros object tile e.
  assert (Hp : object_polygon object = []) by reflexivity.
  assert (Hw : num_positive (object_width object) = true) by reflexivity.
  assert (Hh : num_positive (object_height object) = true) by reflexivity.
  split; [exact (conj Hp (conj Hw Hh))|].
  exact (rectangle_corners_clockwise
           DecimalNumber.decimalNumber object tile 8 Examples.origin e
           Hp Hw Hh).
Defined.

(** *** Objects that build nothing *)

(** C2, as stated, fails on the code: an object of type [navigation] with
    neither a polygon nor a positive width takes an identifier from the
    counter although nothing is built, so the state of the export changes. *)
Lemma skipped_navigation_object_takes_identifier :
  let object := Examples.emptyObject "navigation" in
  let tile := Examples.tileWith 7 None (Some [object]) in
  let e := constructor Examples.resPath (Examples.tilesetOf [tile]) "out.tres" in
  let st := startIteration e [] in
  (object_polygon object = []
   /\ (num_positive (object_width object) = false
       \/ num_positive (object_height object) = false))
  /\ minNavId st = 7
  /\ minNavId (exportObject tile st object) = 8
  /\ exportObject tile st object <> st.
Proof.
  intros object tile e st.
  split; [split; [reflexivity | left; reflexivity]|].
  split; [reflexivity|]. split; [reflexivity|].
  intros H. apply (f_equal minNavId) in H. discriminate H.
Qed.

(** C2, amended. An object with an empty polygon and a width or height
    that is not positive adds no shape-resource text, no shape-assignment
    entry and no navigation-map entry, logs nothing, and leaves every field
    of the exporter and the grid coordinate as they were; the navigation
    identifier counter stays as it was for an object that is not of type
    [navigation], and advances by one for an object of type [navigation]. *)
Theorem skipped_object_is_silent
    (N : JSNumber) (tile : Tile) (st : IterState) (object : MapObject) :
  object_polygon object = [] ->
  num_positive (object_width object) = false
  \/ num_positive (object_height object) = false ->
  this (exportObject tile st object) = this st
  /\ host (exportObject tile st object) = host st
  /\ autotileCoordinates (exportObject tile st object)
     = autotileCoordinates st
  /\ minNavId (exportObject tile st object)
     = if String.eqb (object_type object) "navigation"
       then minNavId st + 1 else minNavId st.
Proof.
  intros Hp Hwh. pose proof (buildsShape_false object Hp Hwh) as Hb.
  unfold exportObject.
  destruct (String.eqb (object_type object) "navigation");
    cbn [this host autotileCoordinates minNavId].
  - now rewrite (exportNavigations_skips _ _ _ _ Hb).
  - now rewrite (exportCollisions_skips _ _ _ _ Hb).
Qed.

Lemma skipped_object_example :
  let object := Examples.emptyObject "" in
  let tile := Examples.tileWith 7 None (Some [object]) in
  let e := constructor Examples.resPath (Examples.tilesetOf [tile]) "out.tres" in
  let st := startIteration e [] in
  (object_polygon object = []
   /\ (num_positive (object_width object) = false
       \/ num_positive (object_height object) = false))
  /\ (this (exportObject tile st object) = this st
      /\ host (exportObject tile st object) = host st
      /\ autotileCoordinates (exportObject tile st object)
         = autotileCoordinates st
      /\ minNavId (exportObject tile st object) = 7).
Proof.
  intros object tile e st.
  assert (Hp : object_polygon object = []) by reflexivity.
  assert (Hw : num_positive (object_width object) = false
               \/ num_positive (object_height object) = false)
    by (left; reflexivity).
  split; [exact (conj Hp Hw)|].
  exact (skipped_object_is_silent
           DecimalNumber.decimalNumber tile st object Hp Hw).
Defined.

(** ** The tile loop *)

Section TileLoop.

Context {N : JSNumber}.
Variable getTilesetColumns : Tileset -> Z.

Lemma exportObjects_fold tile st :
  exportObjects tile st = fold_left (exportObject tile) (objectsOf tile) st.
Proof.
  unfold exportObjects, objectsOf. now destruct (tile_objectGroup tile).
Qed.

Lemma fold_left_invariant {A B : Type} (P : A -> Prop) (f : A -> B -> A)
    (l : list B) (a : A) :
  (forall s x, P s -> P (f s x)) -> P a -> P (fold_left f l a).
Proof.
  intros Hstep. revert a. induction l as [|x r IH]; intros a Ha; cbn.
  - exact Ha.
  - apply IH, Hstep, Ha.
Qed.

Lemma runTiles_snoc e h ts tile :
  runTiles getTilesetColumns e h (ts ++ [tile])
  = exportTile getTilesetColumns (runTiles getTilesetColumns e h ts) tile.
Proof. unfold runTiles. now rewrite fold_left_app. Qed.

Lemma firstn_succ_nth {A : Type} (l : list A) (i : nat) (x : A) :
  nth_error l i = Some x -> firstn (S i) l = (firstn i l ++ [x])%list.
Proof.
  revert i. induction l as [|y r IH]; intros [|i] H; cbn in *;
    try discriminate.
  - now inversion H.
  - f_equal. now apply IH.
Qed.

(** *** What the steps leave alone *)

Lemma exportCollisions_tileset object tile c e :
  tileset (exportCollisions object tile c e) = tileset e.
Proof.
  unfold exportCollisions.
  destruct (hasPolygon object); [now rewrite exportShapes_tileset|].
  destruct (hasExtent object); [now rewrite exportShapes_tileset|].
  reflexivity.
Qed.

Lemma exportNavigations_tileset object id c e :
  tileset (exportNavigations object id c e) = tileset e.
Proof.
  unfold exportNavigations.
  destruct (hasPolygon object); [reflexivity|].
  now destruct (hasExtent object).
Qed.

Lemma exportObject_tileset tile st object :
  tileset (this (exportObject tile st object)) = tileset (this st).
Proof.
  unfold exportObject.
  destruct (String.eqb (object_type object) "navigation"); cbn [this].
  - apply exportNavigations_tileset.
  - apply exportCollisions_tileset.
Qed.

Lemma exportObject_coordinates tile st object :
  autotileCoordinates (exportObject tile st object) = autotileCoordinates st.
Proof.
  unfold exportObject.
  now destruct (String.eqb (object_type object) "navigation").
Qed.

Lemma exportObject_host tile st object :
  host (exportObject tile st object) = host st.
Proof.
  unfold exportObject.
  now destruct (String.eqb (object_type object) "navigation").
Qed.

Lemma exportObject_zIndexMap tile st object :
  zIndexMap (this (exportObject tile st object)) = zIndexMap (this st).
Proof.
  unfold exportObject, exportNavigations, exportCollisions.
  destruct (String.eqb (object_type object) "navigation"); cbn [this];
    destruct (hasPolygon object); try destruct (hasExtent object);
    now rewrite ?exportShapes_zIndexMap.
Qed.

Lemma exportObjects_tileset tile st :
  tileset (this (exportObjects tile st)) = tileset (this st).
Proof.
  rewrite exportObjects_fold.
  apply (fold_left_invariant
           (fun s => tileset (this s) = tileset (this st))); [|reflexivity].
  intros s x Hs. now rewrite exportObject_tileset.
Qed.

Lemma exportObjects_coordinates tile st :
  autotileCoordinates (exportObjects tile st) = autotileCoordinates st.
Proof.
  rewrite exportObjects_fold.
  apply (fold_left_invariant
           (fun s => autotileCoordinates s = autotileCoordinates st));
    [|reflexivity].
  intros s x Hs. now rewrite exportObject_coordinates.
Qed.

Lemma exportObjects_host tile st : host (exportObjects tile st) = host st.
Proof.
  rewrite exportObjects_fold.
  apply (fold_left_invariant (fun s => host s = host st)); [|reflexivity].
  intros s x Hs. now rewrite exportObject_host.
Qed.

Lemma exportObjects_zIndexMap tile st :
  zIndexMap (this (exportObjects tile st)) = zIndexMap (this st).
Proof.
  rewrite exportObjects_fold.
  apply (fold_left_invariant
           (fun s => zIndexMap (this s) = zIndexMap (this st)));
    [|reflexivity].
  intros s x Hs. now rewrite exportObject_zIndexMap.
Qed.

Lemma exportZIndex_tileset tile st :
  tileset (this (exportZIndex tile st)) = tileset (this st).
Proof.
  unfold exportZIndex. destruct (tile_z_index tile); [|reflexivity].
  now destruct (num_isNaN (parseFloat s)).
Qed.

Lemma exportZIndex_coordinates tile st :
  autotileCoordinates (exportZIndex tile st) = autotileCoordinates st.
Proof.
  unfold exportZIndex. destruct (tile_z_index tile); [|reflexivity].
  now destruct (num_isNaN (parseFloat s)).
Qed.

Lemma exportZIndex_minNavId tile st :
  minNavId (exportZIndex tile st) = minNavId st.
Proof.
  unfold exportZIndex. destruct (tile_z_index tile); [|reflexivity].
  now destruct (num_isNaN (parseFloat s)).
Qed.

Lemma exportTile_tileset st tile :
  tileset (this (exportTile getTilesetColumns st tile)) = tileset (this st).
Proof.
  unfold exportTile, leaveTile. cbn [this].
  now rewrite exportObjects_tileset, exportZIndex_tileset.
Qed.

Lemma runTiles_tileset e h ts :
  tileset (this (runTiles getTilesetColumns e h ts)) = tileset e.
Proof.
  unfold runTiles.
  apply (fold_left_invariant (fun s => tileset (this s) = tileset e));
    [|reflexivity].
  intros s x Hs. now rewrite exportTile_tileset.
Qed.

(** *** The grid coordinate *)

Lemma wrapColumn_row_major columns n c :
  1 <= columns -> gridInvariant columns n c ->
  wrapColumn columns c = {| coord_x := n mod columns; coord_y := n / columns |}.
Proof.
  intros HC [Hn Hx]. unfold wrapColumn.
  destruct (coord_x c + 1 >? columns) eqn:E.
  - apply Z.gtb_lt in E.
    assert (Hc : coord_x c = columns) by lia.
    f_equal.
    + apply (Z.mod_unique_pos n columns (coord_y c + 1) 0); lia.
    + apply (Z.div_unique_pos n columns (coord_y c + 1) 0); lia.
  - assert (Hc : coord_x c < columns).
    { destruct (Z.gtb_spec (coord_x c + 1) columns); [discriminate | lia]. }
    destruct c as [x y]; cbn [coord_x coord_y] in *. f_equal.
    + apply (Z.mod_unique_pos n columns y x); lia.
    + apply (Z.div_unique_pos n columns y x); lia.
Qed.

Lemma exportTile_coordinates st tile :
  autotileCoordinates (exportTile getTilesetColumns st tile)
  = let c := wrapColumn (getTilesetColumns (tileset (this st)))
                        (autotileCoordinates st) in
    {| coord_x := coord_x c + 1; coord_y := coord_y c |}.
Proof.
  unfold exportTile, leaveTile. cbn [autotileCoordinates].
  now rewrite exportObjects_coordinates, exportZIndex_coordinates.
Qed.

Lemma exportTile_gridInvariant columns n st tile :
  1 <= columns -> getTilesetColumns (tileset (this st)) = columns ->
  gridInvariant columns n (autotileCoordinates st) ->
  gridInvariant columns (n + 1)
    (autotileCoordinates (exportTile getTilesetColumns st tile)).
Proof.
  intros HC Hcol Hinv. rewrite exportTile_coordinates, Hcol.
  rewrite (wrapColumn_row_major columns n _ HC Hinv).
  destruct Hinv as [Hn Hx]. unfold gridInvariant. cbn [coord_x coord_y].
  pose proof (Z.mod_pos_bound n columns ltac:(lia)).
  pose proof (Z.div_mod n columns ltac:(lia)). lia.
Qed.

Lemma runTiles_gridInvariant e h ts :
  1 <= getTilesetColumns (tileset e) ->
  gridInvariant (getTilesetColumns (tileset e)) (Z.of_nat (List.length ts))
    (autotileCoordinates (runTiles getTilesetColumns e h ts)).
Proof.
  intros HC. induction ts as [|tile r IH] using rev_ind.
  - cbn. unfold gridInvariant. cbn. lia.
  - rewrite runTiles_snoc, length_app, Nat2Z.inj_add. cbn [List.length].
    apply exportTile_gridInvariant; [exact HC | | exact IH].
    now rewrite runTiles_tileset.
Qed.

Lemma objectCalls_coordinates tile st objects :
  Forall (fun call => autotileCoordinates (fst call) = autotileCoordinates st)
         (objectCalls tile st objects).
Proof.
  revert st. induction objects as [|o r IH]; intros st; cbn [objectCalls].
  - constructor.
  - constructor; [reflexivity|].
    specialize (IH (exportObject tile st o)).
    rewrite exportObject_coordinates in IH. exact IH.
Qed.

(** *** The z-index block *)

Lemma exportZIndex_zIndexMap tile st :
  zIndexMap (this (exportZIndex tile st))
  = (zIndexMap (this st) ++ zIndexEntries tile (autotileCoordinates st))%list.
Proof.
  unfold exportZIndex, zIndexEntries.
  destruct (tile_z_index tile) as [v|]; [|now rewrite app_nil_r].
  destruct (num_isNaN (parseFloat v)); cbn [this zIndexMap set_zIndexMap];
    [now rewrite app_nil_r | reflexivity].
Qed.

Lemma exportZIndex_host tile st :
  host (exportZIndex tile st) = (host st ++ zIndexWarnings tile)%list.
Proof.
  unfold exportZIndex, zIndexWarnings.
  destruct (tile_z_index tile) as [v|]; [|now rewrite app_nil_r].
  destruct (num_isNaN (parseFloat v)); cbn [host];
    [reflexivity | now rewrite app_nil_r].
Qed.

Lemma exportTile_zIndexMap st tile :
  zIndexMap (this (exportTile getTilesetColumns st tile))
  = (zIndexMap (this st)
     ++ zIndexEntries tile
          (autotileCoordinates (enterTile getTilesetColumns st)))%list.
Proof.
  unfold exportTile, leaveTile. cbn [this].
  now rewrite exportObjects_zIndexMap, exportZIndex_zIndexMap.
Qed.

Lemma exportTile_host st tile :
  host (exportTile getTilesetColumns st tile)
  = (host st ++ zIndexWarnings tile)%list.
Proof.
  unfold exportTile, leaveTile. cbn [host].
  now rewrite exportObjects_host, exportZIndex_host.
Qed.

Lemma exportObject_call tile st object :
  this (exportObject tile st object)
  = if String.eqb (object_type object) "navigation"
    then exportNavigations object (minNavId st + 1) (autotileCoordinates st)
           (this st)
    else exportCollisions object tile (autotileCoordinates st) (this st).
Proof.
  unfold exportObject.
  now destruct (String.eqb (object_type object) "navigation").
Qed.

End TileLoop.

(** ** Navigation identifiers *)

Section NavigationIdentifiers.

Context {N : JSNumber}.
Variable getTilesetColumns : Tileset -> Z.

Lemma countFrom_app start n m :
  (countFrom start n ++ countFrom (start + Z.of_nat n) m)%list
  = countFrom start (n + m).
Proof.
  revert start. induction n as [|n IH]; intros start.
  - cbn. now rewrite Z.add_0_r.
  - cbn [countFrom Nat.add app]. f_equal.
    rewrite <- IH. do 2 f_equal. lia.
Qed.

Lemma countFrom_length start n : List.length (countFrom start n) = n.
Proof.
  revert start. induction n as [|n IH]; intros start; cbn; [|rewrite IH];
    reflexivity.
Qed.

Lemma countFrom_seq start n :
  countFrom start n = map (fun k => start + 1 + Z.of_nat k) (seq 0 n).
Proof.
  revert start. induction n as [|n IH]; intros start; [reflexivity|].
  cbn [countFrom seq map]. f_equal; [cbn; lia|].
  rewrite IH, <- seq_shift, map_map. apply map_ext. intros k. lia.
Qed.

Lemma countFrom_above start n :
  Forall (fun id => start < id) (countFrom start n).
Proof.
  revert start. induction n as [|n IH]; intros start; cbn [countFrom];
    constructor; [lia|].
  eapply Forall_impl; [|apply IH]. cbn. intros id Hid. lia.
Qed.

Lemma countFrom_sorted start n : StronglySorted Z.lt (countFrom start n).
Proof.
  revert start. induction n as [|n IH]; intros start; cbn [countFrom];
    constructor; [apply IH | apply countFrom_above].
Qed.

Lemma navigationIds_app l1 l2 :
  navigationIds (l1 ++ l2) = (navigationIds l1 ++ navigationIds l2)%list.
Proof. unfold navigationIds. now rewrite filter_app, map_app. Qed.

Lemma objectCalls_navigationIds tile objects st :
  navigationIds (objectCalls tile st objects)
  = countFrom (minNavId st) (navigationCount objects)
  /\ minNavId (fold_left (exportObject tile) objects st)
     = minNavId st + Z.of_nat (navigationCount objects).
Proof.
  revert st. induction objects as [|o r IH]; intros st.
  - cbn. split; [reflexivity | lia].
  - destruct (IH (exportObject tile st o)) as [I1 I2].
    cbn [objectCalls fold_left]. rewrite I2.
    unfold navigationIds, navigationCount in *.
    cbn [filter]. unfold isNavigation at 1. cbn [snd].
    unfold exportObject in *.
    destruct (String.eqb (object_type o) "navigation");
      cbn [minNavId map List.length countFrom callId fst] in *.
    + rewrite I1. split; [reflexivity | lia].
    + rewrite I1. split; reflexivity.
Qed.

Lemma exportTile_minNavId st tile :
  minNavId (exportTile getTilesetColumns st tile)
  = minNavId st + Z.of_nat (navigationCount (objectsOf tile)).
Proof.
  unfold exportTile, leaveTile. cbn [minNavId].
  rewrite exportObjects_fold.
  rewrite (proj2 (objectCalls_navigationIds tile (objectsOf tile) _)).
  now rewrite exportZIndex_minNavId.
Qed.

(** The identifiers taken along the loop are consecutive after the value
    the counter starts from. *)
Lemma tileCalls_navigationIds ts st :
  exists n,
    navigationIds (tileCalls getTilesetColumns st ts)
    = countFrom (minNavId st) n.
Proof.
  revert st. induction ts as [|tile r IH]; intros st.
  - exists O. reflexivity.
  - destruct (IH (exportTile getTilesetColumns st tile)) as [m Hm].
    exists (navigationCount (objectsOf tile) + m)%nat.
    cbn [tileCalls]. rewrite navigationIds_app, Hm, exportTile_minNavId.
    rewrite (proj1 (objectCalls_navigationIds tile (objectsOf tile) _)).
    rewrite exportZIndex_minNavId. cbn [enterTile minNavId].
    apply countFrom_app.
Qed.

Lemma navigationShapeIds_filter calls :
  navigationShapeIds calls
  = map callId
        (filter (fun call => buildsShape (snd call))
                (filter isNavigation calls)).
Proof.
  unfold navigationShapeIds. f_equal.
  induction calls as [|c r IH]; [reflexivity|].
  cbn [filter]. destruct (isNavigation c); cbn [andb filter];
    [destruct (buildsShape (snd c))|]; now rewrite IH.
Qed.

Lemma filter_map_sorted {A : Type} (f : A -> Z) (keep : A -> bool)
    (l : list A) :
  StronglySorted Z.lt (map f l) ->
  StronglySorted Z.lt (map f (filter keep l)).
Proof.
  induction l as [|x r IH]; intros H; [constructor|].
  cbn [map] in H. inversion H as [|? ? Hs Hall]; subst.
  cbn [filter]. destruct (keep x); [|now apply IH].
  cbn [map]. constructor; [now apply IH|].
  rewrite Forall_forall in *. intros y Hy. apply Hall.
  apply in_map_iff in Hy. destruct Hy as (z & <- & Hz).
  apply in_map, (proj1 (filter_In _ _ _) Hz).
Qed.

Lemma filter_map_Forall {A : Type} (P : Z -> Prop) (f : A -> Z)
    (keep : A -> bool) (l : list A) :
  Forall P (map f l) -> Forall P (map f (filter keep l)).
Proof.
  rewrite !Forall_forall. intros H y Hy. apply H.
  apply in_map_iff in Hy. destruct Hy as (z & <- & Hz).
  apply in_map, (proj1 (filter_In _ _ _) Hz).
Qed.

(** *** The seed of the counter *)

Lemma fold_max_le (ts : list Tile) (a : Z) :
  a <= fold_left (fun id tile => Z.max id (tile_id tile)) ts a
  /\ Forall (fun t => tile_id t
                      <= fold_left (fun id tile => Z.max id (tile_id tile)) ts a)
            ts.
Proof.
  revert a. induction ts as [|t r IH]; intros a; cbn [fold_left].
  - split; [lia | constructor].
  - destruct (IH (Z.max a (tile_id t))) as [H1 H2]. split; [lia|].
    constructor; [lia | exact H2].
Qed.

Lemma initialNavId_upper_bound (ts : list Tile) :
  Forall (fun t => tile_id t <= initialNavId ts) ts.
Proof. apply fold_max_le. Qed.

Lemma fold_max_map (ts : list Tile) (a : Z) :
  fold_left (fun id tile => Z.max id (tile_id tile)) ts a
  = fold_left Z.max (map tile_id ts) a.
Proof.
  revert a. induction ts as [|t r IH]; intros a; [reflexivity | apply IH].
Qed.

Lemma initialNavId_maxTileId (ts : list Tile) :
  Forall (fun t => 0 <= tile_id t) ts -> initialNavId ts = maxTileId ts.
Proof.
  unfold initialNavId, maxTileId. destruct ts as [|t r]; [reflexivity|].
  intros H. inversion H as [|? ? Ht _]; subst.
  cbn [fold_left map]. rewrite fold_max_map. f_equal. lia.
Qed.

(** *** The navigation map in terms of the calls *)

Lemma exportObject_navpolyMap tile st object :
  navpolyMap (this (exportObject tile st object))
  = (navpolyMap (this st) ++ navigationEntries (st, object))%list.
Proof.
  unfold navigationEntries, isNavigation, callId, buildsShape. cbn [fst snd].
  unfold exportObject, exportNavigations, exportCollisions.
  destruct (String.eqb (object_type object) "navigation"); cbn [this andb];
    destruct (hasPolygon object); cbn [orb];
    try destruct (hasExtent object);
    rewrite ?exportShapes_navpolyMap;
    cbn [navpolyMap exportNavigationShape set_navpolyMap set_shapesResources];
    now rewrite ?app_nil_r.
Qed.

Lemma exportObjects_navpolyMap tile objects st :
  navpolyMap (this (fold_left (exportObject tile) objects st))
  = (navpolyMap (this st)
     ++ flat_map navigationEntries (objectCalls tile st objects))%list.
Proof.
  revert st. induction objects as [|o r IH]; intros st.
  - cbn. now rewrite app_nil_r.
  - cbn [fold_left objectCalls flat_map].
    now rewrite IH, exportObject_navpolyMap, app_assoc.
Qed.

Lemma exportZIndex_navpolyMap tile st :
  navpolyMap (this (exportZIndex tile st)) = navpolyMap (this st).
Proof.
  unfold exportZIndex. destruct (tile_z_index tile); [|reflexivity].
  now destruct (num_isNaN (parseFloat s)).
Qed.

Lemma tileCalls_navpolyMap ts st :
  navpolyMap (this (fold_left (exportTile getTilesetColumns) ts st))
  = (navpolyMap (this st)
     ++ flat_map navigationEntries (tileCalls getTilesetColumns st ts))%list.
Proof.
  revert st. induction ts as [|tile r IH]; intros st.
  - cbn. now rewrite app_nil_r.
  - cbn [fold_left tileCalls]. rewrite IH, flat_map_app, app_assoc.
    f_equal. unfold exportTile at 1, leaveTile. cbn [this].
    rewrite exportObjects_fold, exportObjects_navpolyMap.
    now rewrite exportZIndex_navpolyMap.
Qed.

End NavigationIdentifiers.

(** C4. On a tileset whose tile ids are not negative, the counter starts
    from the largest tile id (0 without tiles) and is incremented before
    each use: the identifiers taken by navigation objects, in generation
    order, are the consecutive numbers after that seed.  Hence they, and
    the identifiers of the navigation shapes actually built, are strictly
    increasing and exceed every tile id; the built ones are those the
    navigation map refers to. *)
Theorem navigation_ids_increase_above_tile_ids
    (N : JSNumber) (getTilesetColumns : Tileset -> Z)
    (e : GodotTilesetExporter) (h : list HostEvent) :
  Forall (fun t => 0 <= tile_id t) (tiles (tileset e)) ->
  let ts := tiles (tileset e) in
  let start := startIteration e h in
  let calls := tileCalls getTilesetColumns start ts in
  minNavId start = maxTileId ts
  /\ navigationIds calls
     = map (fun k => maxTileId ts + 1 + Z.of_nat k)
           (seq 0 (List.length (navigationIds calls)))
  /\ StronglySorted Z.lt (navigationIds calls)
  /\ StronglySorted Z.lt (navigationShapeIds calls)
  /\ Forall (fun id => Forall (fun t => tile_id t < id) ts)
            (navigationIds calls)
  /\ Forall (fun id => Forall (fun t => tile_id t < id) ts)
            (navigationShapeIds calls)
  /\ navpolyMap (this (runTiles getTilesetColumns e h ts))
     = (navpolyMap e ++ flat_map navigationEntries calls)%list.
Proof.
  intros Hids ts start calls.
  assert (Hstart : minNavId start = maxTileId ts)
    by (apply initialNavId_maxTileId, Hids).
  destruct (tileCalls_navigationIds getTilesetColumns ts start) as [n Hn].
  fold calls in Hn.
  assert (Habove : Forall (fun id => Forall (fun t => tile_id t < id) ts)
                          (navigationIds calls)).
  { rewrite Hn. eapply Forall_impl; [|apply countFrom_above].
    cbn beta. intros id Hid.
    eapply Forall_impl; [|apply (initialNavId_upper_bound ts)].
    cbn beta. intros t Ht. change (minNavId start) with (initialNavId ts) in Hid.
    lia. }
  assert (Hsorted : StronglySorted Z.lt (navigationIds calls))
    by (rewrite Hn; apply countFrom_sorted).
  split; [exact Hstart|]. split.
  { rewrite Hn at 1. rewrite Hn, countFrom_length, countFrom_seq.
    now rewrite Hstart. }
  split; [exact Hsorted|]. split.
  { rewrite navigationShapeIds_filter. now apply filter_map_sorted. }
  split; [exact Habove|]. split.
  { rewrite navigationShapeIds_filter. now apply filter_map_Forall. }
  apply tileCalls_navpolyMap.
Qed.

(** Two tiles of ids 4 and 9 with three navigation objects, the second of
    which builds nothing: the identifiers taken are 10, 11 and 12, and the
    navigation map refers to 10 and 12. *)
Lemma navigation_ids_example :
  let ts :=
    Examples.tilesetOf
      [ Examples.tileWith 4 None
          (Some [Examples.squarePolygon "navigation"; Examples.rectangle "";
                 Examples.emptyObject "navigation"]);
        Examples.tileWith 9 None (Some [Examples.rectangle "navigation"]) ] in
  let e := constructor Examples.resPath ts "out.tres" in
  let calls :=
    tileCalls Examples.columnsOf (startIteration e []) (tiles ts) in
  Forall (fun t => 0 <= tile_id t) (tiles (tileset e))
  /\ minNavId (startIteration e []) = 9
  /\ navigationIds calls = [10; 11; 12]
  /\ navigationShapeIds calls = [10; 12]
  /\ StronglySorted Z.lt (navigationShapeIds calls)
  /\ navpolyMap (this (runTiles Examples.columnsOf e [] (tiles ts)))
     = [ "Vector2( 0, 0 )"; "SubResource( 10 )";
         "Vector2( 1, 0 )"; "SubResource( 12 )" ]%string.
Proof.
  intros ts e calls.
  assert (Hids : Forall (fun t => 0 <= tile_id t) (tiles (tileset e)))
    by (repeat constructor; discriminate).
  destruct (navigation_ids_increase_above_tile_ids
              DecimalNumber.decimalNumber Examples.columnsOf e [] Hids)
    as (H1 & H2 & _ & H4 & _ & _ & H7).
  split; [exact Hids|]. split; [exact H1|]. split; [exact H2|].
  split; [reflexivity|]. split; [exact H4 | exact H7].
Defined.

(** ** Collision identifiers *)

Section CollisionIdentifiers.

Context {N : JSNumber}.

Lemma collisionBlock_header (id : Z) (object : MapObject) :
  collisionBlock id object
  = (collisionHeader id ++ "points = PoolVector2Array( "
     ++ collisionPoints object ++ " )" ++ nl ++ nl)%string.
Proof.
  unfold collisionBlock, collisionPoints. now destruct (hasPolygon object).
Qed.

Lemma exportNavigations_builds object id c e :
  buildsShape object = true ->
  exportNavigations object id c e
  = exportNavigationShape id c
      (set_shapesResources
         (shapesResources e ++ navigationBlock id object) e).
Proof.
  unfold buildsShape, exportNavigations, navigationBlock.
  destruct (hasPolygon object); [reflexivity|].
  cbn [orb]. now intros ->.
Qed.

Lemma exportObject_texts tile st object :
  shapesResources (this (exportObject tile st object))
  = (shapesResources (this st) ++ resourceBlock tile (st, object))%string
  /\ shapes (this (exportObject tile st object))
     = (shapes (this st) ++ shapeAssignment tile (st, object))%string.
Proof.
  rewrite exportObject_call.
  unfold resourceBlock, shapeAssignment, isNavigation, callId. cbn [fst snd].
  destruct (buildsShape object) eqn:Hb.
  - destruct (String.eqb (object_type object) "navigation"); cbn [negb andb].
    + rewrite (exportNavigations_builds _ _ _ _ Hb).
      cbn [exportNavigationShape set_navpolyMap set_shapesResources
           shapesResources shapes].
      now rewrite TextFacts.append_empty_r.
    + rewrite (exportCollisions_builds _ _ _ _ Hb).
      rewrite exportShapes_shapesResources, exportShapes_shapes.
      cbn [set_shapesResources shapesResources shapes].
      now rewrite collisionBlock_header.
  - rewrite andb_false_r.
    destruct (String.eqb (object_type object) "navigation");
      rewrite ?(exportNavigations_skips _ _ _ _ Hb),
              ?(exportCollisions_skips _ _ _ _ Hb);
      now rewrite !TextFacts.append_empty_r.
Qed.

Lemma exportObjects_texts tile objects st :
  shapesResources (this (fold_left (exportObject tile) objects st))
  = (shapesResources (this st)
     ++ Text.concat (map (resourceBlock tile) (objectCalls tile st objects)))
    %string
  /\ shapes (this (fold_left (exportObject tile) objects st))
     = (shapes (this st)
        ++ Text.concat
             (map (shapeAssignment tile) (objectCalls tile st objects)))
       %string.
Proof.
  revert st. induction objects as [|o r IH]; intros st.
  - cbn. now rewrite !TextFacts.append_empty_r.
  - cbn [fold_left objectCalls map]. unfold Text.concat in *.
    cbn [fold_right].
    destruct (IH (exportObject tile st o)) as [I1 I2].
    destruct (exportObject_texts tile st o) as [H1 H2].
    rewrite I1, I2, H1, H2. now rewrite !TextFacts.append_assoc.
Qed.

End CollisionIdentifiers.

(** ** The z-index map *)

Section ZIndexMap.

Context {N : JSNumber}.
Variable getTilesetColumns : Tileset -> Z.

(** Entries and host events are only ever added at the end. *)
Lemma later_tiles_extend ts st :
  exists laterEntries laterEvents,
    zIndexMap (this (fold_left (exportTile getTilesetColumns) ts st))
    = (zIndexMap (this st) ++ laterEntries)%list
    /\ host (fold_left (exportTile getTilesetColumns) ts st)
       = (host st ++ laterEvents)%list.
Proof.
  revert st. induction ts as [|tile r IH]; intros st.
  - exists [], []. cbn. now rewrite !app_nil_r.
  - destruct (IH (exportTile getTilesetColumns st tile))
      as (entries & events & H1 & H2).
    cbn [fold_left]. rewrite H1, H2, exportTile_zIndexMap, exportTile_host.
    eexists. eexists. now rewrite <- !app_assoc.
Qed.

Lemma runTiles_split e h ts i :
  runTiles getTilesetColumns e h ts
  = fold_left (exportTile getTilesetColumns) (skipn i ts)
      (runTiles getTilesetColumns e h (firstn i ts)).
Proof.
  unfold runTiles. now rewrite <- fold_left_app, firstn_skipn.
Qed.

End ZIndexMap.

(** C5. A tile whose [godot:z_index] value parses as a number adds exactly
    one triple (x, y, parsed value), at the coordinate the tile is exported
    at, and nothing is logged for it; a tile whose value does not parse adds
    no triple and makes the host record one warning that carries the tile
    id and the raw value.  In both cases the loop goes on with the tiles
    that follow, what was added stays in the final map and record, and the
    file is written. *)
Theorem z_index_recorded_or_warned
    (N : JSNumber) (getTilesetColumns : Tileset -> Z)
    (e : GodotTilesetExporter) (h : list HostEvent) (i : nat) (tile : Tile)
    (zIndex : string) :
  nth_error (tiles (tileset e)) i = Some tile ->
  tile_z_index tile = Some zIndex ->
  let ts := tiles (tileset e) in
  let before := runTiles getTilesetColumns e h (firstn i ts) in
  let c := autotileCoordinates (enterTile getTilesetColumns before) in
  let after := exportTile getTilesetColumns before tile in
  let final := fst (iterateTiles getTilesetColumns e h) in
  (if num_isNaN (parseFloat zIndex) then
     zIndexMap (this after) = zIndexMap (this before)
     /\ host after
        = (host before
           ++ [Warn ("Skipping export of godot:z_index on tile with id "
                     ++ showZ (tile_id tile)
                     ++ " because it can not be converted to float. value: "
                     ++ zIndex)])%list
   else
     zIndexMap (this after)
     = (zIndexMap (this before)
        ++ [(coord_x c, coord_y c, parseFloat zIndex)])%list
     /\ host after = host before)
  /\ runTiles getTilesetColumns e h ts
     = fold_left (exportTile getTilesetColumns) (skipn (S i) ts) after
  /\ exists laterEntries laterEvents,
       zIndexMap final = (zIndexMap (this after) ++ laterEntries)%list
       /\ snd (write getTilesetColumns e h)
          = (host after ++ laterEvents
             ++ [FileCommit (fileName final) (getTilesetTemplate final);
                 Log ("Tileset exported successfully to "
                      ++ fileName final)])%list.
Proof.
  intros Hi Hz ts before c after final.
  assert (Hrun : runTiles getTilesetColumns e h ts
                 = fold_left (exportTile getTilesetColumns)
                     (skipn (S i) ts) after).
  { rewrite (runTiles_split getTilesetColumns e h ts (S i)).
    unfold ts at 2. rewrite (firstn_succ_nth _ _ _ Hi).
    now rewrite runTiles_snoc. }
  split; [|split; [exact Hrun|]].
  - unfold after. rewrite exportTile_zIndexMap, exportTile_host.
    unfold zIndexEntries, zIndexWarnings. rewrite Hz. fold c.
    destruct (num_isNaN (parseFloat zIndex));
      [now rewrite app_nil_r | now rewrite app_nil_r].
  - destruct (later_tiles_extend getTilesetColumns (skipn (S i) ts) after)
      as (entries & events & H1 & H2).
    exists entries, events. rewrite <- Hrun in H1, H2.
    unfold final, write, writeToFile, iterateTiles. fold ts.
    cbn [fst snd zIndexMap set_shapes]. split; [exact H1|].
    rewrite H2. now rewrite <- !app_assoc.
Qed.

(** The specification's examples for C5: the value [1.5] on the first tile
    adds the triple (0, 0, 1.5) and logs nothing; the value [abc] on the
    second tile (id 3) adds nothing and is reported; the rendered map holds
    the one triple. *)
Lemma z_index_example :
  let parsed := Examples.tileWith 7 (Some "1.5") None in
  let rejected := Examples.tileWith 3 (Some "abc") None in
  let ts := Examples.tilesetOf [parsed; rejected] in
  let e := constructor Examples.resPath ts "out.tres" in
  let first := runTiles Examples.columnsOf e [] [parsed] in
  let second := runTiles Examples.columnsOf e [] [parsed; rejected] in
  (nth_error (tiles (tileset e)) 0 = Some parsed
   /\ tile_z_index parsed = Some "1.5"
   /\ nth_error (tiles (tileset e)) 1 = Some rejected
   /\ tile_z_index rejected = Some "abc")
  /\ (zIndexMap (this first) = [(0, 0, DecimalNumber.Finite 15 1)]
      /\ host first = [])
  /\ (zIndexMap (this second) = [(0, 0, DecimalNumber.Finite 15 1)]
      /\ host second
         = [Warn "Skipping export of godot:z_index on tile with id 3 because it can not be converted to float. value: abc"])
  /\ map renderZIndexItem
         (zIndexMap (fst (iterateTiles Examples.columnsOf e [])))
     = ["Vector3( 0, 0, 1.5 )"%string].
Proof.
  intros parsed rejected ts e first second.
  assert (H0 : nth_error (tiles (tileset e)) 0 = Some parsed) by reflexivity.
  assert (Hp : tile_z_index parsed = Some "1.5"%string) by reflexivity.
  assert (H1 : nth_error (tiles (tileset e)) 1 = Some rejected) by reflexivity.
  assert (Hr : tile_z_index rejected = Some "abc"%string) by reflexivity.
  split; [exact (conj H0 (conj Hp (conj H1 Hr)))|].
  split.
  - exact (proj1 (z_index_recorded_or_warned
                    DecimalNumber.decimalNumber Examples.columnsOf e [] 0
                    parsed "1.5" H0 Hp)).
  - split; [|reflexivity].
    exact (proj1 (z_index_recorded_or_warned
                    DecimalNumber.decimalNumber Examples.columnsOf e [] 1
                    rejected "abc" H1 Hr)).
Defined.

(** ** The rendered document *)

Section RenderedDocument.

Context {N : JSNumber}.
Variable getResPath : option string -> option string -> string -> string.
Variable getTilesetColumns : Tileset -> Z.

(** *** The fallback shape reference *)

Lemma exportObject_firstShapeID tile st object :
  firstShapeID (this st) = "0" ->
  firstShapeID (this (exportObject tile st object)) = "0".
Proof.
  intros H. rewrite exportObject_call.
  unfold exportNavigations, exportCollisions.
  destruct (String.eqb (object_type object) "navigation");
    destruct (hasPolygon object); try destruct (hasExtent object);
    try exact H; now apply exportShapes_firstShapeID.
Qed.

Lemma exportTile_firstShapeID st tile :
  firstShapeID (this st) = "0" ->
  firstShapeID (this (exportTile getTilesetColumns st tile)) = "0".
Proof.
  intros H. unfold exportTile, leaveTile. cbn [this].
  rewrite exportObjects_fold.
  apply (fold_left_invariant (fun s => firstShapeID (this s) = "0")).
  - intros s x. apply exportObject_firstShapeID.
  - unfold exportZIndex. destruct (tile_z_index tile) as [v|]; [|exact H].
    now destruct (num_isNaN (parseFloat v)).
Qed.

Lemma iterateTiles_firstShapeID e h :
  firstShapeID e = "0" ->
  firstShapeID (fst (iterateTiles getTilesetColumns e h)) = "0".
Proof.
  intros H. unfold iterateTiles, runTiles. cbn [fst firstShapeID set_shapes].
  apply (fold_left_invariant (fun s => firstShapeID (this s) = "0")).
  - intros s x. apply exportTile_firstShapeID.
  - exact H.
Qed.

(** *** Peeling a prefix off a concatenation *)



(** *** The shape assignments *)









(** *** The navigation and z-index maps *)




End RenderedDocument.

(** C1, on the code.  The constructor stores the literal [0] in
    [firstShapeID], while [exportShapes] replaces the field only when it
    holds the empty text: the replacement never happens, and every rendered
    document carries [0/shape = 0], also when collision shapes were built.
    The second part runs the export of one tile of id 7 owning one rectangle:
    a shape assignment to [SubResource( 7 )] is rendered, and the fallback
    is still the literal. *)
Theorem first_shape_reference_stays_literal :
  (forall (N : JSNumber)
          (getResPath : option string -> option string -> string -> string)
          (getTilesetColumns : Tileset -> Z)
          (ts : Tileset) (file : string) (h : list HostEvent),
      let final :=
        fst (iterateTiles getTilesetColumns (constructor getResPath ts file) h)
      in
      firstShapeID final = "0"%string
      /\ exists before after,
           getTilesetTemplate final
           = (before ++ "0/shape = " ++ "0" ++ nl ++ after)%string)
  /\ (let tile := Examples.tileWith 7 None (Some [Examples.rectangle ""]) in
      let final :=
        fst (iterateTiles Examples.columnsOf
               (constructor Examples.resPath (Examples.tilesetOf [tile])
                  "out.tres") []) in
      shapesResources final
      = ("[sub_resource type=" ++ dq ++ "ConvexPolygonShape2D" ++ dq
         ++ " id=7]" ++ nl
         ++ "points = PoolVector2Array( 2, 3, 6, 3, 6, 9, 2, 9 )"
         ++ nl ++ nl)%string
      /\ shapes final
         = stripTrailingSeparator (getShapesTemplate Examples.origin false 7)
      /\ firstShapeID final = "0"%string
      /\ firstShapeID final <> "SubResource( 7 )"%string).
Proof.
  split.
  - intros N getResPath getTilesetColumns ts file h final.
    assert (H : firstShapeID final = "0"%string)
      by now apply iterateTiles_firstShapeID.
    split; [exact H|].
    unfold getTilesetTemplate. cbv zeta. rewrite H.
    assert (Hpeel : forall a b rest : string,
               (exists before after, b = (before ++ rest ++ after)%string) ->
               exists before after,
                 (a ++ b)%string = (before ++ rest ++ after)%string).
    { intros a b rest (x & y & ->). exists (a ++ x)%string, y.
      now rewrite TextFacts.append_assoc. }
    assert (Hstop : forall rest after : string,
               exists before after',
                 (rest ++ after)%string = (before ++ rest ++ after')%string)
      by (intros rest after; now exists ""%string, after).
    change ("0/shape = " ++ "0" ++ nl ++ ?x)%string
      with (("0/shape = " ++ "0" ++ nl) ++ x)%string.
    repeat first
      [ apply (Hstop ("0/shape = " ++ "0" ++ nl)%string) | apply Hpeel ].
  - repeat split; try reflexivity. discriminate.
Qed.


(** ** Determinism of an export *)

Section Determinism.

Context {N : JSNumber}.
Variable getResPath : option string -> option string -> string -> string.
Variable getTilesetColumns : Tileset -> Z.

Ltac same_fields :=
  repeat match goal with
         | H : sameText _ _ |- _ =>
             destruct H as (? & ? & ? & ? & ? & ? & ?)
         | e : GodotTilesetExporter |- _ => destruct e
         end;
  cbn in *; subst.

Lemma sameText_template a b :
  sameText a b -> getTilesetTemplate a = getTilesetTemplate b.
Proof.
  intros (H1 & H2 & H3 & H4 & H5 & H6 & H7). unfold getTilesetTemplate.
  now rewrite H1, H2, H3, H4, H5, H6, H7.
Qed.

Lemma sameText_set_shapes a b v :
  sameText a b -> sameText (set_shapes v a) (set_shapes v b).
Proof. intros H. same_fields. now repeat split. Qed.

Lemma sameText_exportShapes a b tile c oneWay :
  sameText a b ->
  sameText (exportShapes tile c oneWay a) (exportShapes tile c oneWay b).
Proof.
  intros H. unfold exportShapes. same_fields.
  destruct (String.eqb _ ""); now repeat split.
Qed.

Lemma sameText_set_shapesResources a b v w :
  sameText a b -> v = w ->
  sameText (set_shapesResources v a) (set_shapesResources w b).
Proof. intros H ->. same_fields. now repeat split. Qed.

Lemma sameText_exportCollisions a b object tile c :
  sameText a b ->
  sameText (exportCollisions object tile c a) (exportCollisions object tile c b).
Proof.
  intros H. unfold exportCollisions.
  assert (Hr : shapesResources a = shapesResources b) by apply H.
  destruct (hasPolygon object); [|destruct (hasExtent object)];
    try exact H;
    apply sameText_exportShapes, sameText_set_shapesResources;
    try exact H; now rewrite Hr.
Qed.

Lemma sameText_exportNavigations a b object id c :
  sameText a b ->
  sameText (exportNavigations object id c a) (exportNavigations object id c b).
Proof.
  intros H. unfold exportNavigations, exportNavigationShape.
  destruct (hasPolygon object); [|destruct (hasExtent object)];
    try exact H; same_fields; now repeat split.
Qed.

Lemma sameProgress_exportObject tile s t object :
  sameProgress s t ->
  sameProgress (exportObject tile s object) (exportObject tile t object).
Proof.
  intros (H1 & H2 & H3). unfold exportObject, sameProgress.
  destruct (String.eqb (object_type object) "navigation");
    cbn [this minNavId autotileCoordinates]; rewrite H2, H3;
    (split; [|split; reflexivity]);
    first [ now apply sameText_exportNavigations
          | now apply sameText_exportCollisions ].
Qed.

Lemma sameProgress_exportZIndex tile s t :
  sameProgress s t ->
  sameProgress (exportZIndex tile s) (exportZIndex tile t).
Proof.
  destruct s as [a hs ns cs], t as [b ht nt ct].
  unfold exportZIndex, sameProgress.
  cbn [this host minNavId autotileCoordinates]. intros (H1 & -> & ->).
  destruct (tile_z_index tile) as [v|]; [|now split].
  destruct (num_isNaN (parseFloat v));
    cbn [this minNavId autotileCoordinates];
    (split; [|now split]); [exact H1|].
  same_fields. now repeat split.
Qed.

Lemma sameProgress_exportTile s t tile :
  sameProgress s t ->
  sameProgress (exportTile getTilesetColumns s tile)
               (exportTile getTilesetColumns t tile).
Proof.
  intros H. unfold exportTile.
  assert (He : sameProgress (enterTile getTilesetColumns s)
                            (enterTile getTilesetColumns t)).
  { destruct H as (H1 & H2 & H3). unfold enterTile, sameProgress.
    cbn [this minNavId autotileCoordinates].
    rewrite H3, (proj1 H1). now split. }
  apply (sameProgress_exportZIndex tile) in He.
  assert (Ho : sameProgress (exportObjects tile (exportZIndex tile
                                (enterTile getTilesetColumns s)))
                            (exportObjects tile (exportZIndex tile
                                (enterTile getTilesetColumns t)))).
  { rewrite !exportObjects_fold.
    revert He. generalize (exportZIndex tile (enterTile getTilesetColumns s)).
    generalize (exportZIndex tile (enterTile getTilesetColumns t)).
    induction (objectsOf tile) as [|o r IH]; intros t' s' Hst; [exact Hst|].
    cbn [fold_left]. now apply IH, sameProgress_exportObject. }
  destruct Ho as (H1 & H2 & H3). unfold leaveTile, sameProgress.
  cbn [this minNavId autotileCoordinates]. rewrite H3. now split.
Qed.

Lemma sameProgress_fold ts s t :
  sameProgress s t ->
  sameProgress (fold_left (exportTile getTilesetColumns) ts s)
               (fold_left (exportTile getTilesetColumns) ts t).
Proof.
  revert s t. induction ts as [|tile r IH]; intros s t H; [exact H|].
  cbn [fold_left]. now apply IH, sameProgress_exportTile.
Qed.

(** The exporter after the loop does not depend on the destination nor on
    what the host recorded before. *)
Lemma iterateTiles_sameText ts file1 file2 h1 h2 :
  sameText
    (fst (iterateTiles getTilesetColumns (constructor getResPath ts file1) h1))
    (fst (iterateTiles getTilesetColumns (constructor getResPath ts file2) h2)).
Proof.
  unfold iterateTiles, runTiles. cbn [fst tileset constructor].
  assert (H : sameProgress
                (fold_left (exportTile getTilesetColumns) (tiles ts)
                   (startIteration (constructor getResPath ts file1) h1))
                (fold_left (exportTile getTilesetColumns) (tiles ts)
                   (startIteration (constructor getResPath ts file2) h2))).
  { apply sameProgress_fold. unfold sameProgress, sameText. now repeat split. }
  destruct H as (H1 & _ & _).
  assert (Hs : shapes (this (fold_left (exportTile getTilesetColumns) (tiles ts)
                   (startIteration (constructor getResPath ts file1) h1)))
               = shapes (this (fold_left (exportTile getTilesetColumns) (tiles ts)
                   (startIteration (constructor getResPath ts file2) h2))))
    by apply H1.
  rewrite Hs. now apply sameText_set_shapes.
Qed.

(** The destination is carried along unchanged. *)
Lemma exportObject_fileName tile st object :
  fileName (this (exportObject tile st object)) = fileName (this st).
Proof.
  rewrite exportObject_call. unfold exportNavigations, exportCollisions.
  unfold exportShapes.
  destruct (String.eqb (object_type object) "navigation");
    destruct (hasPolygon object); try destruct (hasExtent object);
    try reflexivity; cbn [set_shapesResources firstShapeID];
    now destruct (String.eqb (firstShapeID (this st)) "").
Qed.

Lemma exportTile_fileName st tile :
  fileName (this (exportTile getTilesetColumns st tile)) = fileName (this st).
Proof.
  unfold exportTile, leaveTile. cbn [this]. rewrite exportObjects_fold.
  apply (fold_left_invariant
           (fun s => fileName (this s) = fileName (this st))).
  - intros s x Hs. now rewrite exportObject_fileName.
  - unfold exportZIndex. destruct (tile_z_index tile) as [v|]; [|reflexivity].
    now destruct (num_isNaN (parseFloat v)).
Qed.

Lemma iterateTiles_fileName e h :
  fileName (fst (iterateTiles getTilesetColumns e h)) = fileName e.
Proof.
  unfold iterateTiles, runTiles. cbn [fst fileName set_shapes].
  apply (fold_left_invariant (fun s => fileName (this s) = fileName e));
    [|reflexivity].
  intros s x Hs. now rewrite exportTile_fileName.
Qed.

(** What the loop makes the host record: the warnings of the tiles, after
    what was recorded before. *)
Lemma iterateTiles_host e h :
  snd (iterateTiles getTilesetColumns e h)
  = (h ++ flat_map zIndexWarnings (tiles (tileset e)))%list.
Proof.
  unfold iterateTiles, runTiles. cbn [snd].
  change h with (host (startIteration e h)) at 2.
  generalize (startIteration e h).
  induction (tiles (tileset e)) as [|tile r IH]; intros st.
  - cbn. now rewrite app_nil_r.
  - cbn [fold_left flat_map]. now rewrite IH, exportTile_host, app_assoc.
Qed.

(** One call of the registered format: the host's record grows by the
    warnings of the tiles, the committed file and the success message. *)
Lemma customTilesetFormat_write_events ts file h :
  customTilesetFormat_write getResPath getTilesetColumns ts file h
  = (h ++ flat_map zIndexWarnings (tiles ts)
     ++ [FileCommit file (renderedDocument getResPath getTilesetColumns ts file);
         Log ("Tileset exported successfully to " ++ file)])%list.
Proof.
  unfold customTilesetFormat_write, write, writeToFile, renderedDocument.
  pose proof (iterateTiles_host (constructor getResPath ts file) h) as Hh.
  pose proof (iterateTiles_fileName (constructor getResPath ts file) h) as Hf.
  pose proof (iterateTiles_sameText ts file file h []) as Ht.
  apply sameText_template in Ht.
  destruct (iterateTiles getTilesetColumns (constructor getResPath ts file) h)
    as [e1 h1].
  cbn [fst snd] in *. rewrite Hh, Hf, Ht. cbn [tileset constructor fileName].
  now rewrite <- !app_assoc.
Qed.

End Determinism.

(** C9. The text rendered for a tileset does not depend on the destination:
    two calls of the registered format on the same tileset, one after the
    other, commit the same text to the two destinations, and the second
    call adds to the host's record exactly what the first one added, for
    its own destination.  Every call builds its exporter anew, so no
    counter and no accumulator is carried from one call to the next. *)
Theorem export_is_deterministic
    (N : JSNumber)
    (getResPath : option string -> option string -> string -> string)
    (getTilesetColumns : Tileset -> Z)
    (ts : Tileset) (file1 file2 : string) (h : list HostEvent) :
  let document := renderedDocument getResPath getTilesetColumns ts file1 in
  let warnings := flat_map zIndexWarnings (tiles ts) in
  let once :=
    customTilesetFormat_write getResPath getTilesetColumns ts file1 h in
  let twice :=
    customTilesetFormat_write getResPath getTilesetColumns ts file2 once in
  renderedDocument getResPath getTilesetColumns ts file2 = document
  /\ once
     = (h ++ warnings
        ++ [FileCommit file1 document;
            Log ("Tileset exported successfully to " ++ file1)])%list
  /\ twice
     = (once ++ warnings
        ++ [FileCommit file2 document;
            Log ("Tileset exported successfully to " ++ file2)])%list.
Proof.
  intros document warnings once twice.
  assert (Hdoc : renderedDocument getResPath getTilesetColumns ts file2
                 = document).
  { unfold document, renderedDocument.
    apply sameText_template, iterateTiles_sameText. }
  split; [exact Hdoc|]. split.
  - apply customTilesetFormat_write_events.
  - unfold twice. rewrite customTilesetFormat_write_events. now rewrite Hdoc.
Qed.

(** ** The accumulators over a whole export *)

Section WholeExport.

Context {N : JSNumber}.
Variable getResPath : option string -> option string -> string -> string.
Variable getTilesetColumns : Tileset -> Z.

Lemma concat_app (l1 l2 : list string) :
  Text.concat (l1 ++ l2) = (Text.concat l1 ++ Text.concat l2)%string.
Proof.
  unfold Text.concat. induction l1 as [|x r IH]; cbn [app fold_right].
  - reflexivity.
  - now rewrite IH, TextFacts.append_assoc.
Qed.

Lemma exportZIndex_texts tile st :
  shapesResources (this (exportZIndex tile st)) = shapesResources (this st)
  /\ shapes (this (exportZIndex tile st)) = shapes (this st).
Proof.
  unfold exportZIndex. destruct (tile_z_index tile) as [v|]; [|now split].
  now destruct (num_isNaN (parseFloat v)).
Qed.

Lemma objectCalls_objects tile st objects :
  map snd (objectCalls tile st objects) = objects.
Proof.
  revert st. induction objects as [|o r IH]; intros st; [reflexivity|].
  cbn [objectCalls map snd]. now rewrite IH.
Qed.

Lemma exportTile_texts st tile :
  let calls :=
    objectCalls tile (exportZIndex tile (enterTile getTilesetColumns st))
      (objectsOf tile) in
  shapesResources (this (exportTile getTilesetColumns st tile))
  = (shapesResources (this st) ++ Text.concat (map (resourceBlock tile) calls))
    %string
  /\ shapes (this (exportTile getTilesetColumns st tile))
     = (shapes (this st) ++ Text.concat (map (shapeAssignment tile) calls))
       %string.
Proof.
  intros calls. unfold exportTile, leaveTile. cbn [this].
  rewrite exportObjects_fold.
  destruct (exportObjects_texts tile (objectsOf tile)
              (exportZIndex tile (enterTile getTilesetColumns st)))
    as [H1 H2].
  destruct (exportZIndex_texts tile (enterTile getTilesetColumns st))
    as [Z1 Z2].
  rewrite H1, H2, Z1, Z2. now split.
Qed.

Lemma taggedCalls_untagged k st ts :
  map snd (taggedCalls getTilesetColumns k st ts)
  = tileCalls getTilesetColumns st ts.
Proof.
  revert k st. induction ts as [|tile r IH]; intros k st; [reflexivity|].
  cbn [taggedCalls tileCalls]. rewrite map_app, map_map, IH. cbn [snd].
  now rewrite map_id.
Qed.

(** The texts accumulated by the loop from any state on. *)
Lemma taggedCalls_texts k st ts :
  let calls := taggedCalls getTilesetColumns k st ts in
  let after := fold_left (exportTile getTilesetColumns) ts st in
  shapesResources (this after)
  = (shapesResources (this st) ++ Text.concat (map taggedBlock calls))%string
  /\ shapes (this after)
     = (shapes (this st) ++ Text.concat (map taggedAssignment calls))%string.
Proof.
  revert k st. induction ts as [|tile r IH]; intros k st.
  - cbn. now rewrite !TextFacts.append_empty_r.
  - cbn zeta in *. cbn [taggedCalls fold_left].
    destruct (IH (S k) (exportTile getTilesetColumns st tile)) as [I1 I2].
    destruct (exportTile_texts st tile) as [H1 H2].
    rewrite I1, I2, H1, H2, !map_app, !map_map, !concat_app.
    unfold taggedBlock, taggedAssignment. cbn [fst snd].
    now rewrite !TextFacts.append_assoc.
Qed.

(** Every tagged call carries the tile found at its index, and the objects
    called are, in order, the objects of the tiles. *)
Lemma taggedCalls_tiles k st ts :
  Forall (fun entry =>
            exists j, fst (fst entry) = (k + j)%nat
                      /\ nth_error ts j = Some (snd (fst entry)))
         (taggedCalls getTilesetColumns k st ts)
  /\ map (fun entry => snd (snd entry)) (taggedCalls getTilesetColumns k st ts)
     = flat_map objectsOf ts.
Proof.
  revert k st. induction ts as [|tile r IH]; intros k st.
  - split; [constructor | reflexivity].
  - cbn [taggedCalls flat_map].
    destruct (IH (S k) (exportTile getTilesetColumns st tile)) as [I1 I2].
    split.
    + apply Forall_app. split.
      * apply Forall_forall. intros entry Hin.
        apply in_map_iff in Hin. destruct Hin as (call & <- & _).
        exists O. cbn. split; [lia | reflexivity].
      * eapply Forall_impl; [|exact I1]. cbn beta.
        intros entry (j & Hj & Hn). exists (S j). split; [lia | exact Hn].
    + rewrite map_app, map_map, I2. cbn [snd]. f_equal.
      apply objectCalls_objects.
Qed.

End WholeExport.

(** ** Tiles without objects, and tilesets without tiles *)

Section WithoutObjects.

Context {N : JSNumber}.
Variable getResPath : option string -> option string -> string -> string.
Variable getTilesetColumns : Tileset -> Z.

Lemma taggedCalls_without_objects k st ts :
  Forall (fun t => objectsOf t = []) ts ->
  taggedCalls getTilesetColumns k st ts = [].
Proof.
  intros H. revert k st.
  induction H as [|tile r Ht _ IH]; intros k st; [reflexivity|].
  cbn [taggedCalls]. now rewrite Ht, IH.
Qed.

Lemma objects_without_objects (ts : list Tile) :
  Forall (fun t => objectsOf t = []) ts -> flat_map objectsOf ts = [].
Proof.
  induction 1 as [|t r Ht _ IH]; [reflexivity|].
  cbn [flat_map]. now rewrite Ht, IH.
Qed.

Lemma fold_minNavId ts st :
  minNavId (fold_left (exportTile getTilesetColumns) ts st)
  = minNavId st
    + Z.of_nat (navigationCount (flat_map objectsOf ts)).
Proof.
  revert st. induction ts as [|tile r IH]; intros st.
  - cbn. lia.
  - cbn [fold_left flat_map]. rewrite IH, exportTile_minNavId.
    unfold navigationCount. rewrite filter_app, length_app. lia.
Qed.

Lemma occursIn_here (piece after : string) :
  occursIn piece (piece ++ after).
Proof. now exists ""%string, after. Qed.

Lemma occursIn_later (piece a text : string) :
  occursIn piece text -> occursIn piece (a ++ text).
Proof.
  intros (b & c & ->). exists (a ++ b)%string, c.
  now rewrite TextFacts.append_assoc.
Qed.

Lemma occursIn_prefix (piece text : string) :
  String.prefix piece text = true -> occursIn piece text.
Proof.
  intros H.
  assert (Hsplit : exists after, text = (piece ++ after)%string).
  { revert text H. induction piece as [|a p IH]; intros text H.
    - now exists text.
    - destruct text as [|b t]; [discriminate|]. cbn [String.prefix] in H.
      destruct (ascii_dec a b) as [->|]; [|discriminate].
      destruct (IH t H) as [after ->]. now exists after. }
  destruct Hsplit as [after ->]. apply occursIn_here.
Qed.

End WithoutObjects.

(** X2. When no tile of the tileset owns an object (no object group, or an
    empty one), an export adds nothing to the shape resources, to the shape
    assignments and to the navigation map, and takes no identifier from the
    counter; the z-index properties of the tiles are still handled, the
    unparsable ones being reported in tile order. *)
Theorem export_without_objects
    (N : JSNumber) (getTilesetColumns : Tileset -> Z)
    (e : GodotTilesetExporter) (h : list HostEvent) :
  Forall (fun t => objectsOf t = []) (tiles (tileset e)) ->
  let ts := tiles (tileset e) in
  let final := fst (iterateTiles getTilesetColumns e h) in
  shapesResources final = shapesResources e
  /\ shapes final = stripTrailingSeparator (shapes e)
  /\ navpolyMap final = navpolyMap e
  /\ minNavId (runTiles getTilesetColumns e h ts) = initialNavId ts
  /\ snd (iterateTiles getTilesetColumns e h)
     = (h ++ flat_map zIndexWarnings ts)%list.
Proof.
  intros Hall ts final.
  pose proof (taggedCalls_without_objects getTilesetColumns 0
                (startIteration e h) ts Hall) as Hcalls.
  destruct (taggedCalls_texts getTilesetColumns 0 (startIteration e h) ts)
    as [H1 H2].
  rewrite Hcalls in H1, H2. cbn [map Text.concat fold_right] in H1, H2.
  rewrite TextFacts.append_empty_r in H1, H2.
  split; [exact H1|]. split.
  { unfold final, iterateTiles, runTiles. cbn [fst shapes set_shapes].
    fold ts. now rewrite H2. }
  split.
  { pose proof (tileCalls_navpolyMap getTilesetColumns ts (startIteration e h))
      as Hn.
    rewrite <- taggedCalls_untagged with (k := O) in Hn.
    rewrite Hcalls in Hn. cbn [map flat_map] in Hn.
    rewrite app_nil_r in Hn. exact Hn. }
  split.
  { unfold runTiles. rewrite fold_minNavId.
    rewrite (objects_without_objects ts Hall). cbn. unfold ts. lia. }
  apply iterateTiles_host.
Qed.

(** Three tiles without objects, the second with an unparsable z-index:
    nothing is accumulated but the warning. *)
Lemma export_without_objects_example :
  let ts :=
    Examples.tilesetOf
      [ Examples.tileWith 0 None None;
        Examples.tileWith 5 (Some "high") (Some []);
        Examples.tileWith 2 (Some "3") None ] in
  let e := constructor Examples.resPath ts "out.tres" in
  let final := fst (iterateTiles Examples.columnsOf e []) in
  Forall (fun t => objectsOf t = []) (tiles (tileset e))
  /\ shapesResources final = ""%string
  /\ shapes final = ""%string
  /\ navpolyMap final = []
  /\ minNavId (runTiles Examples.columnsOf e [] (tiles ts)) = 5
  /\ snd (iterateTiles Examples.columnsOf e [])
     = [Warn "Skipping export of godot:z_index on tile with id 5 because it can not be converted to float. value: high"].
Proof.
  intros ts e final.
  assert (Hall : Forall (fun t => objectsOf t = []) (tiles (tileset e)))
    by (repeat constructor).
  split; [exact Hall|].
  exact (export_without_objects
           DecimalNumber.decimalNumber Examples.columnsOf e [] Hall).
Defined.

(** X3. The export of a tileset without tiles leaves the exporter as the
    constructor made it, and the host's record grows by the committed file
    and the success message only; the document holds no [sub_resource]
    block after the texture line, and its navigation map, z-index map and
    shapes list are the empty lists. *)
Theorem export_of_empty_tileset
    (N : JSNumber)
    (getResPath : option string -> option string -> string -> string)
    (getTilesetColumns : Tileset -> Z)
    (ts : Tileset) (file : string) (h : list HostEvent) :
  tiles ts = [] ->
  let e := constructor getResPath ts file in
  let document := getTilesetTemplate e in
  fst (iterateTiles getTilesetColumns e h) = e
  /\ customTilesetFormat_write getResPath getTilesetColumns ts file h
     = (h ++ [FileCommit file document;
              Log ("Tileset exported successfully to " ++ file)])%list
  /\ occursIn (" id=1]" ++ nl ++ nl ++ "[resource]" ++ nl) document
  /\ occursIn ("0/autotile/navpoly_map = [  ]" ++ nl) document
  /\ occursIn ("0/autotile/z_index_map = [  ]" ++ nl) document
  /\ occursIn ("0/shapes = [  ]" ++ nl) document.
Proof.
  intros Hts e document.
  assert (He : iterateTiles getTilesetColumns e h = (e, h)).
  { unfold iterateTiles, runTiles. cbn [tileset constructor e].
    rewrite Hts. reflexivity. }
  split; [now rewrite He|]. split.
  { unfold customTilesetFormat_write, write, writeToFile. fold e.
    rewrite He. cbn [fst snd]. unfold document.
    now rewrite <- app_assoc. }
  unfold document, getTilesetTemplate, e.
  cbn [tileset constructor spriteImagePath shapesResources shapes navpolyMap
       zIndexMap firstShapeID map join].
  repeat split;
    repeat first [ apply occursIn_prefix; reflexivity | apply occursIn_later ].
Qed.

Lemma export_of_empty_tileset_example :
  let ts := Examples.tilesetOf [] in
  let e := constructor Examples.resPath ts "out.tres" in
  tiles ts = []
  /\ fst (iterateTiles Examples.columnsOf e []) = e
  /\ customTilesetFormat_write Examples.resPath Examples.columnsOf ts
       "out.tres" []
     = [FileCommit "out.tres" (getTilesetTemplate e);
        Log "Tileset exported successfully to out.tres"].
Proof.
  intros ts e.
  assert (Hts : tiles ts = []) by reflexivity.
  destruct (export_of_empty_tileset
              DecimalNumber.decimalNumber Examples.resPath Examples.columnsOf
              ts "out.tres" [] Hts) as (H1 & H2 & _).
  split; [exact Hts|]. split; [exact H1 | exact H2].
Defined.

(** ** The z-index map over a whole export *)

Section WholeZIndexMap.

Context {N : JSNumber}.
Variable getTilesetColumns : Tileset -> Z.

Lemma zIndex_entry_or_warning tile c :
  (List.length (zIndexEntries tile c) + List.length (zIndexWarnings tile))%nat
  = if hasZIndex tile then 1%nat else 0%nat.
Proof.
  unfold zIndexEntries, zIndexWarnings, hasZIndex.
  destruct (tile_z_index tile) as [v|]; [|reflexivity].
  now destruct (num_isNaN (parseFloat v)).
Qed.

Lemma fold_zIndexMap columns k ts st :
  1 <= columns ->
  getTilesetColumns (tileset (this st)) = columns ->
  gridInvariant columns (Z.of_nat k) (autotileCoordinates st) ->
  zIndexMap (this (fold_left (exportTile getTilesetColumns) ts st))
  = (zIndexMap (this st)
     ++ flat_map (fun it => zIndexEntries (snd it) (rowMajor columns (fst it)))
          (indexedFrom k ts))%list.
Proof.
  intros HC. revert k st. induction ts as [|tile r IH]; intros k st Hcol Hinv.
  - cbn. now rewrite app_nil_r.
  - cbn [fold_left]. unfold indexedFrom. cbn [List.length seq combine flat_map].
    rewrite (IH (S k)).
    + rewrite exportTile_zIndexMap. unfold enterTile.
      cbn [autotileCoordinates fst snd]. rewrite Hcol.
      rewrite (wrapColumn_row_major columns (Z.of_nat k) _ HC Hinv).
      now rewrite <- app_assoc.
    + now rewrite exportTile_tileset.
    + rewrite Nat2Z.inj_succ. unfold Z.succ.
      now apply exportTile_gridInvariant.
Qed.

Lemma entries_and_warnings_count columns k ts :
  (List.length
     (flat_map (fun it => zIndexEntries (snd it) (rowMajor columns (fst it)))
        (indexedFrom k ts))
   + List.length (flat_map zIndexWarnings ts))%nat
  = List.length (filter hasZIndex ts).
Proof.
  revert k. induction ts as [|tile r IH]; intros k; [reflexivity|].
  unfold indexedFrom in *. cbn [List.length seq combine flat_map filter].
  rewrite !length_app. specialize (IH (S k)).
  pose proof (zIndex_entry_or_warning tile (rowMajor columns k)) as Ht.
  cbn [fst snd]. destruct (hasZIndex tile); cbn [List.length]; lia.
Qed.

(** *** Without columns *)

Lemma runTiles_without_columns e h ts :
  getTilesetColumns (tileset e) <= 0 ->
  coord_y (autotileCoordinates (runTiles getTilesetColumns e h ts))
  = Z.of_nat (List.length ts)
  /\ 0 <= coord_x (autotileCoordinates (runTiles getTilesetColumns e h ts)).
Proof.
  intros HC. induction ts as [|tile r [Hy Hx]] using rev_ind.
  - cbn. split; [reflexivity | lia].
  - rewrite runTiles_snoc, exportTile_coordinates, runTiles_tileset.
    rewrite length_app, Nat2Z.inj_add. cbn [List.length].
    unfold wrapColumn.
    destruct (Z.gtb_spec
                (coord_x (autotileCoordinates
                            (runTiles getTilesetColumns e h r)) + 1)
                (getTilesetColumns (tileset e))) as [_|Hle]; [|lia].
    cbn [coord_x coord_y]. split; lia.
Qed.

End WholeZIndexMap.

(** X4. With at least one column, the z-index map after an export is what
    the exporter held before followed, in tile order, by one triple
    (i mod columns, i div columns, parsed value) for every tile of index
    [i] whose [godot:z_index] value parses, and the host's record grows by
    one warning for every tile whose value does not parse: every tile that
    carries the property gives either its triple or its warning, and a tile
    without the property gives neither. *)
Theorem z_index_map_in_tile_order
    (N : JSNumber) (getTilesetColumns : Tileset -> Z)
    (e : GodotTilesetExporter) (h : list HostEvent) :
  1 <= getTilesetColumns (tileset e) ->
  let ts := tiles (tileset e) in
  let columns := getTilesetColumns (tileset e) in
  let added :=
    flat_map (fun it => zIndexEntries (snd it) (rowMajor columns (fst it)))
      (indexedFrom 0 ts) in
  let warnings := flat_map zIndexWarnings ts in
  zIndexMap (fst (iterateTiles getTilesetColumns e h))
  = (zIndexMap e ++ added)%list
  /\ snd (iterateTiles getTilesetColumns e h) = (h ++ warnings)%list
  /\ (List.length added + List.length warnings)%nat
     = List.length (filter hasZIndex ts).
Proof.
  intros HC ts columns added warnings. split; [|split].
  - unfold iterateTiles, runTiles. cbn [fst zIndexMap set_shapes].
    apply (fold_zIndexMap getTilesetColumns columns 0 ts (startIteration e h));
      [exact HC | reflexivity |].
    unfold gridInvariant. cbn. lia.
  - apply iterateTiles_host.
  - apply entries_and_warnings_count.
Qed.

(** Four tiles on two columns: the values [1.5] and [-2] of the first and
    the fourth tile are recorded at (0, 0) and (1, 1), the value [top] of
    the third tile is reported, the second tile has no property. *)
Lemma z_index_map_example :
  let ts :=
    Examples.tilesetOf
      [ Examples.tileWith 0 (Some "1.5") None;
        Examples.tileWith 1 None None;
        Examples.tileWith 2 (Some "top") None;
        Examples.tileWith 3 (Some "-2") None ] in
  let e := constructor Examples.resPath ts "out.tres" in
  1 <= Examples.columnsOf (tileset e)
  /\ zIndexMap (fst (iterateTiles Examples.columnsOf e []))
     = [ (0, 0, DecimalNumber.Finite 15 1);
         (1, 1, DecimalNumber.Finite (-2) 0) ]
  /\ snd (iterateTiles Examples.columnsOf e [])
     = [Warn "Skipping export of godot:z_index on tile with id 2 because it can not be converted to float. value: top"].
Proof.
  intros ts e.
  assert (HC : 1 <= Examples.columnsOf (tileset e))
    by (vm_compute; discriminate).
  destruct (z_index_map_in_tile_order
              DecimalNumber.decimalNumber Examples.columnsOf e [] HC)
    as (H1 & H2 & _).
  split; [exact HC|]. split; [exact H1 | exact H2].
Defined.

(** X5. When the tileset reports no column (a count of 0 or less), the
    column test holds for every tile: the tile of index [i] is exported at
    (0, i + 1), the first row is never used, every object of the tile is
    exported at that coordinate, and the coordinate is left at
    (1, i + 1). *)
Theorem tiles_stack_without_columns
    (N : JSNumber) (getTilesetColumns : Tileset -> Z)
    (e : GodotTilesetExporter) (h : list HostEvent) (i : nat) (tile : Tile) :
  getTilesetColumns (tileset e) <= 0 ->
  nth_error (tiles (tileset e)) i = Some tile ->
  let c := {| coord_x := 0; coord_y := Z.of_nat i + 1 |} in
  let before :=
    runTiles getTilesetColumns e h (firstn i (tiles (tileset e))) in
  let entered := exportZIndex tile (enterTile getTilesetColumns before) in
  let after :=
    runTiles getTilesetColumns e h (firstn (S i) (tiles (tileset e))) in
  autotileCoordinates (enterTile getTilesetColumns before) = c
  /\ zIndexMap (this entered)
     = (zIndexMap (this before) ++ zIndexEntries tile c)%list
  /\ Forall (fun call => autotileCoordinates (fst call) = c)
            (objectCalls tile entered (objectsOf tile))
  /\ autotileCoordinates after
     = {| coord_x := 1; coord_y := Z.of_nat i + 1 |}.
Proof.
  intros HC Hi c before entered after.
  assert (Hlen : List.length (firstn i (tiles (tileset e))) = i).
  { apply firstn_length_le, Nat.lt_le_incl, nth_error_Some. congruence. }
  destruct (runTiles_without_columns getTilesetColumns e h
              (firstn i (tiles (tileset e))) HC) as [Hy Hx].
  fold before in Hy, Hx. rewrite Hlen in Hy.
  assert (Hc : autotileCoordinates (enterTile getTilesetColumns before) = c).
  { unfold enterTile. cbn [autotileCoordinates]. unfold before at 1.
    rewrite runTiles_tileset. unfold wrapColumn.
    destruct (Z.gtb_spec (coord_x (autotileCoordinates before) + 1)
                (getTilesetColumns (tileset e))) as [_|Hle]; [|lia].
    unfold c. now rewrite Hy. }
  split; [exact Hc|]. split.
  { unfold entered. now rewrite exportZIndex_zIndexMap, Hc. }
  split.
  { pose proof (objectCalls_coordinates tile entered (objectsOf tile)) as Hall.
    unfold entered in Hall at 1. rewrite exportZIndex_coordinates, Hc in Hall.
    exact Hall. }
  unfold after. rewrite (firstn_succ_nth _ _ _ Hi), runTiles_snoc.
  fold before. rewrite exportTile_coordinates.
  unfold enterTile in Hc. cbn [autotileCoordinates] in Hc. now rewrite Hc.
Qed.

(** On a tileset that reports 0 columns (tiles wider than the image), the
    third tile is exported at (0, 3). *)
Lemma tiles_stack_without_columns_example :
  let tile := Examples.tileWith 2 (Some "1.5") (Some [Examples.rectangle ""]) in
  let ts :=
    {| tileset_name := "wide"; tileset_image := "wide.png";
       tileset_projectRoot := None; tileset_relativePath := None;
       imageWidth := 16; imageHeight := 16; margin := 0;
       tileWidth := 32; tileHeight := 16; tileSpacing := 0;
       tiles := [Examples.tileWith 0 None None; Examples.tileWith 1 None None;
                 tile] |} in
  let e := constructor Examples.resPath ts "out.tres" in
  let before := runTiles Examples.columnsOf e [] (firstn 2 (tiles ts)) in
  (Examples.columnsOf (tileset e) <= 0
   /\ nth_error (tiles (tileset e)) 2 = Some tile)
  /\ autotileCoordinates (enterTile Examples.columnsOf before)
     = {| coord_x := 0; coord_y := 3 |}
  /\ zIndexMap (this (exportZIndex tile (enterTile Examples.columnsOf before)))
     = [(0, 3, DecimalNumber.Finite 15 1)].
Proof.
  intros tile ts e before.
  assert (HC : Examples.columnsOf (tileset e) <= 0)
    by (vm_compute; discriminate).
  assert (Hi : nth_error (tiles (tileset e)) 2 = Some tile) by reflexivity.
  destruct (tiles_stack_without_columns
              DecimalNumber.decimalNumber Examples.columnsOf e [] 2 tile HC Hi)
    as (H1 & H2 & _).
  split; [exact (conj HC Hi)|]. split; [exact H1 | exact H2].
Defined.

(** ** Coordinates of different tiles *)

Section DistinctCoordinates.

Context {N : JSNumber}.
Variable getTilesetColumns : Tileset -> Z.

Lemma coordinateOfTile_with_columns e h i :
  1 <= getTilesetColumns (tileset e) ->
  (i <= List.length (tiles (tileset e)))%nat ->
  coordinateOfTile getTilesetColumns e h i
  = rowMajor (getTilesetColumns (tileset e)) i.
Proof.
  intros HC Hi. unfold coordinateOfTile, enterTile. cbn [autotileCoordinates].
  rewrite runTiles_tileset.
  apply wrapColumn_row_major; [exact HC|].
  pose proof (runTiles_gridInvariant getTilesetColumns e h
                (firstn i (tiles (tileset e))) HC) as Hinv.
  now rewrite firstn_length_le in Hinv.
Qed.

Lemma coordinateOfTile_without_columns e h i :
  getTilesetColumns (tileset e) <= 0 ->
  (i <= List.length (tiles (tileset e)))%nat ->
  coordinateOfTile getTilesetColumns e h i
  = {| coord_x := 0; coord_y := Z.of_nat i + 1 |}.
Proof.
  intros HC Hi. unfold coordinateOfTile, enterTile. cbn [autotileCoordinates].
  rewrite runTiles_tileset.
  destruct (runTiles_without_columns getTilesetColumns e h
              (firstn i (tiles (tileset e))) HC) as [Hy Hx].
  rewrite firstn_length_le in Hy by exact Hi.
  unfold wrapColumn.
  destruct (Z.gtb_spec
              (coord_x (autotileCoordinates
                 (runTiles getTilesetColumns e h
                    (firstn i (tiles (tileset e))))) + 1)
              (getTilesetColumns (tileset e))) as [_|Hle]; [|lia].
  now rewrite Hy.
Qed.

Lemma rowMajor_injective columns i j :
  1 <= columns -> rowMajor columns i = rowMajor columns j -> i = j.
Proof.
  intros HC H. unfold rowMajor in H. inversion H as [[Hx Hy]].
  pose proof (Z.div_mod (Z.of_nat i) columns ltac:(lia)) as Hi.
  pose proof (Z.div_mod (Z.of_nat j) columns ltac:(lia)) as Hj.
  rewrite Hx, Hy in Hi. lia.
Qed.

End DistinctCoordinates.

(** X6. Whatever column count the tileset reports, two different tiles are
    never exported at the same coordinate, so the entries of one tile never
    land on the cell of another. *)
Theorem tiles_never_share_a_coordinate
    (N : JSNumber) (getTilesetColumns : Tileset -> Z)
    (e : GodotTilesetExporter) (h : list HostEvent) (i j : nat) :
  (i < List.length (tiles (tileset e)))%nat ->
  (j < List.length (tiles (tileset e)))%nat ->
  i <> j ->
  coordinateOfTile getTilesetColumns e h i
  <> coordinateOfTile getTilesetColumns e h j.
Proof.
  intros Hi Hj Hdiff Hsame. apply Hdiff.
  destruct (Z_lt_le_dec 0 (getTilesetColumns (tileset e))) as [Hpos|Hnone].
  - rewrite !coordinateOfTile_with_columns in Hsame by lia.
    apply (rowMajor_injective (getTilesetColumns (tileset e))); [lia|].
    exact Hsame.
  - rewrite !coordinateOfTile_without_columns in Hsame by lia.
    inversion Hsame. lia.
Qed.

(** Three tiles on two columns stand at (0, 0), (1, 0) and (0, 1). *)
Lemma tiles_never_share_a_coordinate_example :
  let ts :=
    Examples.tilesetOf
      [ Examples.tileWith 0 None None; Examples.tileWith 1 None None;
        Examples.tileWith 2 None None ] in
  let e := constructor Examples.resPath ts "out.tres" in
  ((0 < List.length (tiles (tileset e)))%nat
   /\ (2 < List.length (tiles (tileset e)))%nat
   /\ 0%nat <> 2%nat)
  /\ coordinateOfTile Examples.columnsOf e [] 0
     <> coordinateOfTile Examples.columnsOf e [] 2
  /\ map (coordinateOfTile Examples.columnsOf e []) [0; 1; 2]%nat
     = [ {| coord_x := 0; coord_y := 0 |}; {| coord_x := 1; coord_y := 0 |};
         {| coord_x := 0; coord_y := 1 |} ].
Proof.
  intros ts e.
  assert (H0 : (0 < List.length (tiles (tileset e)))%nat) by (cbn; lia).
  assert (H2 : (2 < List.length (tiles (tileset e)))%nat) by (cbn; lia).
  assert (Hd : 0%nat <> 2%nat) by discriminate.
  split; [exact (conj H0 (conj H2 Hd))|].
  split; [|reflexivity].
  exact (tiles_never_share_a_coordinate
           DecimalNumber.decimalNumber Examples.columnsOf e [] 0 2 H0 H2 Hd).
Defined.

(** ** The one-way flag *)

Section OneWay.

Context {N : JSNumber}.

Lemma buildsShape_withType type object :
  buildsShape (withType type object) = buildsShape object.
Proof. reflexivity. Qed.

Lemma collisionBlock_withType id type object :
  collisionBlock id (withType type object) = collisionBlock id object.
Proof. reflexivity. Qed.

End OneWay.

(** X7. The type of an object that builds a collision shape decides one
    thing only: the block added to the shape resources is the same whatever
    the type, and the shape assignment carries [true] after [one_way]
    exactly when the type is [one-way], the rest of the entry being the
    same for both values of the flag. *)
Theorem one_way_changes_the_flag_only
    (N : JSNumber) (object : MapObject) (tile : Tile) (c : Coord)
    (e : GodotTilesetExporter) (type : string) :
  buildsShape object = true ->
  shapesResources (exportCollisions (withType type object) tile c e)
  = shapesResources (exportCollisions object tile c e)
  /\ shapes (exportCollisions (withType type object) tile c e)
     = (shapes e
        ++ getShapesTemplate c (String.eqb type "one-way") (tile_id tile))
       %string
  /\ exists head tail, forall flag,
       getShapesTemplate c flag (tile_id tile)
       = (head ++ dq ++ "one_way" ++ dq ++ ": " ++ showBool flag ++ ","
          ++ tail)%string.
Proof.
  intros Hb.
  assert (Hb' : buildsShape (withType type object) = true)
    by now rewrite buildsShape_withType.
  rewrite (exportCollisions_builds _ _ _ _ Hb).
  rewrite (exportCollisions_builds _ _ _ _ Hb').
  rewrite !exportShapes_shapesResources, exportShapes_shapes.
  cbn [shapesResources shapes set_shapesResources object_type withType].
  rewrite collisionBlock_withType.
  split; [reflexivity|]. split; [reflexivity|].
  exists ("{" ++ nl ++ dq ++ "autotile_coord" ++ dq ++ ": Vector2( "
          ++ (showZ (coord_x c) ++ ", " ++ showZ (coord_y c)) ++ " ),"
          ++ nl)%string.
  exists (nl ++ dq ++ "one_way_margin" ++ dq ++ ": 1.0," ++ nl
          ++ dq ++ "shape" ++ dq ++ ": SubResource( "
          ++ showZ (tile_id tile) ++ " )," ++ nl
          ++ dq ++ "shape_transform" ++ dq
          ++ ": Transform2D( 1, 0, 0, 1, 0, 0 )" ++ nl ++ "}, ")%string.
  intros flag. unfold getShapesTemplate. cbv zeta.
  now rewrite !TextFacts.append_assoc.
Qed.

(** The rectangle of the examples, once solid and once one-way: the same
    block, and the flag [true] for the second. *)
Lemma one_way_example :
  let object := Examples.rectangle "" in
  let tile := Examples.tileWith 7 None (Some [object]) in
  let e := constructor Examples.resPath (Examples.tilesetOf [tile]) "out.tres" in
  buildsShape object = true
  /\ shapesResources
       (exportCollisions (withType "one-way" object) tile Examples.origin e)
     = shapesResources (exportCollisions object tile Examples.origin e)
  /\ shapes (exportCollisions (withType "one-way" object) tile Examples.origin e)
     = getShapesTemplate Examples.origin true 7
  /\ shapes (exportCollisions object tile Examples.origin e)
     = getShapesTemplate Examples.origin false 7.
Proof.
  intros object tile e.
  assert (Hb : buildsShape object = true) by reflexivity.
  destruct (one_way_changes_the_flag_only
              DecimalNumber.decimalNumber object tile Examples.origin e
              "one-way" Hb) as (H1 & H2 & _).
  split; [exact Hb|]. split; [exact H1|]. split; [exact H2 | reflexivity].
Defined.

(** ** Identifiers that cannot collide *)

Section DistinctIdentifiers.

Context {N : JSNumber}.
Variable getTilesetColumns : Tileset -> Z.

Lemma sorted_NoDup (l : list Z) : StronglySorted Z.lt l -> NoDup l.
Proof.
  induction 1 as [|x r _ IH Hall]; constructor; [|exact IH].
  intros Hin. rewrite Forall_forall in Hall. specialize (Hall x Hin). lia.
Qed.

Lemma initialNavId_nonnegative (ts : list Tile) : 0 <= initialNavId ts.
Proof. apply (fold_max_le ts 0). Qed.

End DistinctIdentifiers.


(** ** The builders against the text written out *)

Section EmittedText.

Context {N : JSNumber}.
Variable getTilesetColumns : Tileset -> Z.

(** The three ways an object is dispatched. *)
Lemma shapeOf_cases (object : MapObject) :
  (hasPolygon object = true
   /\ shapeOf object = Some (PolygonShape (absoluteVertices object)))
  \/ (hasPolygon object = false /\ hasExtent object = true
      /\ shapeOf object = Some (RectangleShape (rectangleCorners object)))
  \/ (hasPolygon object = false /\ hasExtent object = false
      /\ shapeOf object = None).
Proof.
  unfold hasPolygon, hasExtent, shapeOf.
  destruct (object_polygon object) as [|p r]; [|left; now split].
  right. cbn [List.length Nat.ltb Nat.leb].
  destruct (num_positive (object_width object)
            && num_positive (object_height object));
    [left | right]; now repeat split.
Qed.

Lemma getCollisionShapePolygon_text id object :
  getCollisionShapePolygon id object
  = collisionBlockText id (PolygonShape (absoluteVertices object)).
Proof.
  unfold getCollisionShapePolygon, collisionBlockText, collisionHeader.
  rewrite polygonCoordinateString_spec. cbn [verticesOf].
  now rewrite !TextFacts.append_assoc.
Qed.

Lemma getCollisionShapeRectangle_text id object :
  getCollisionShapeRectangle id object
  = collisionBlockText id (RectangleShape (rectangleCorners object)).
Proof.
  unfold getCollisionShapeRectangle, collisionBlockText, collisionHeader.
  rewrite rectangleCoordinateString_spec. cbn [verticesOf].
  now rewrite !TextFacts.append_assoc.
Qed.

Lemma getNavigationShapePolygon_text id object :
  getNavigationShapePolygon id object
  = navigationBlockText id (PolygonShape (absoluteVertices object)).
Proof.
  unfold getNavigationShapePolygon, navigationBlockText, navigationHeader,
    polygonIndices.
  rewrite polygonCoordinateString_spec. cbn [verticesOf indexListText].
  unfold absoluteVertices. rewrite length_map.
  now rewrite !TextFacts.append_assoc.
Qed.

Lemma getNavigationShapeRectangle_text id object :
  getNavigationShapeRectangle id object
  = navigationBlockText id (RectangleShape (rectangleCorners object)).
Proof.
  unfold getNavigationShapeRectangle, navigationBlockText, navigationHeader.
  rewrite rectangleCoordinateString_spec. cbn [verticesOf indexListText].
  now rewrite !TextFacts.append_assoc.
Qed.

Lemma getShapesTemplate_text c oneWay id :
  getShapesTemplate c oneWay id = shapeEntryText c oneWay id.
Proof.
  unfold getShapesTemplate, shapeEntryText. cbv zeta.
  now rewrite !TextFacts.append_assoc.
Qed.

(** What a call adds, in the text written out. *)
Lemma resourceBlock_text tile call :
  resourceBlock tile call = expectedBlock tile call.
Proof.
  unfold resourceBlock, expectedBlock, buildsShape, navigationBlock,
    collisionPoints, blockId.
  destruct (shapeOf_cases (snd call))
    as [(Hp & ->) | [(Hp & He & ->) | (Hp & He & ->)]];
    rewrite Hp, ?He; cbn [orb]; [| |reflexivity];
    destruct (isNavigation call).
  - apply getNavigationShapePolygon_text.
  - now rewrite <- getCollisionShapePolygon_text.
  - apply getNavigationShapeRectangle_text.
  - now rewrite <- getCollisionShapeRectangle_text.
Qed.

Lemma shapeAssignment_text tile call :
  shapeAssignment tile call
  = expectedAssignment tile (autotileCoordinates (fst call)) call.
Proof.
  unfold shapeAssignment, expectedAssignment, buildsShape, blockId.
  destruct (shapeOf_cases (snd call))
    as [(Hp & ->) | [(Hp & He & ->) | (Hp & He & ->)]];
    rewrite Hp, ?He; cbn [orb]; destruct (isNavigation call); cbn [negb andb];
    try reflexivity; apply getShapesTemplate_text.
Qed.

Lemma navigationEntries_text tile call :
  navigationEntries call
  = expectedNavigationPair tile (autotileCoordinates (fst call)) call.
Proof.
  unfold navigationEntries, expectedNavigationPair, buildsShape, blockId,
    navigationPairText, callId.
  destruct (shapeOf_cases (snd call))
    as [(Hp & ->) | [(Hp & He & ->) | (Hp & He & ->)]];
    rewrite Hp, ?He; cbn [orb]; destruct (isNavigation call); reflexivity.
Qed.

(** *** One tile *)

Lemma exportTile_navpolyMap st tile :
  navpolyMap (this (exportTile getTilesetColumns st tile))
  = (navpolyMap (this st)
     ++ flat_map navigationEntries
          (objectCalls tile
             (exportZIndex tile (enterTile getTilesetColumns st))
             (objectsOf tile)))%list.
Proof.
  unfold exportTile, leaveTile. cbn [this].
  rewrite exportObjects_fold, exportObjects_navpolyMap.
  now rewrite exportZIndex_navpolyMap.
Qed.

(** What a tile adds when all its calls run at the coordinate [c]. *)
Lemma calls_at_coordinate tile c calls :
  Forall (fun call => autotileCoordinates (fst call) = c) calls ->
  map (resourceBlock tile) calls = map (expectedBlock tile) calls
  /\ map (shapeAssignment tile) calls = map (expectedAssignment tile c) calls
  /\ flat_map navigationEntries calls
     = flat_map (expectedNavigationPair tile c) calls.
Proof.
  induction 1 as [|call r Hc _ (I1 & I2 & I3)]; [now repeat split|].
  cbn [map flat_map]. rewrite I1, I2, I3.
  rewrite resourceBlock_text, shapeAssignment_text,
    (navigationEntries_text tile), Hc.
  now repeat split.
Qed.

Lemma exportTile_expected st tile :
  let entered := exportZIndex tile (enterTile getTilesetColumns st) in
  let c := autotileCoordinates (enterTile getTilesetColumns st) in
  let calls := objectCalls tile entered (objectsOf tile) in
  shapesResources (this (exportTile getTilesetColumns st tile))
  = (shapesResources (this st) ++ Text.concat (map (expectedBlock tile) calls))
    %string
  /\ shapes (this (exportTile getTilesetColumns st tile))
     = (shapes (this st)
        ++ Text.concat (map (expectedAssignment tile c) calls))%string
  /\ navpolyMap (this (exportTile getTilesetColumns st tile))
     = (navpolyMap (this st)
        ++ flat_map (expectedNavigationPair tile c) calls)%list.
Proof.
  intros entered c calls.
  destruct (exportTile_texts getTilesetColumns st tile) as [H1 H2].
  pose proof (exportTile_navpolyMap st tile) as H3.
  assert (Hc : Forall (fun call => autotileCoordinates (fst call) = c) calls).
  { pose proof (objectCalls_coordinates tile entered (objectsOf tile)) as H.
    unfold entered in H at 1. now rewrite exportZIndex_coordinates in H. }
  destruct (calls_at_coordinate tile c calls Hc) as (E1 & E2 & E3).
  fold entered in H1, H2, H3. fold calls in H1, H2, H3.
  rewrite E1 in H1. rewrite E2 in H2. rewrite E3 in H3.
  now repeat split.
Qed.

(** *** All the tiles *)

Lemma taggedCalls_expected k st ts :
  let calls := taggedCalls getTilesetColumns k st ts in
  let after := fold_left (exportTile getTilesetColumns) ts st in
  shapesResources (this after)
  = (shapesResources (this st) ++ Text.concat (map taggedExpectedBlock calls))
    %string
  /\ shapes (this after)
     = (shapes (this st)
        ++ Text.concat (map taggedExpectedAssignment calls))%string
  /\ navpolyMap (this after)
     = (navpolyMap (this st) ++ flat_map taggedExpectedPair calls)%list.
Proof.
  cbv zeta.
  destruct (taggedCalls_texts getTilesetColumns k st ts) as [H1 H2].
  pose proof (tileCalls_navpolyMap getTilesetColumns ts st) as H3.
  rewrite <- (taggedCalls_untagged getTilesetColumns k) in H3.
  rewrite H1, H2, H3. clear H1 H2 H3.
  assert (Hb : map taggedBlock (taggedCalls getTilesetColumns k st ts)
               = map taggedExpectedBlock (taggedCalls getTilesetColumns k st ts)).
  { apply map_ext. intros entry. apply resourceBlock_text. }
  assert (Ha : map taggedAssignment (taggedCalls getTilesetColumns k st ts)
               = map taggedExpectedAssignment
                   (taggedCalls getTilesetColumns k st ts)).
  { apply map_ext. intros entry. apply shapeAssignment_text. }
  rewrite Hb, Ha. repeat split.
  f_equal. rewrite flat_map_concat_map, map_map, <- flat_map_concat_map.
  apply flat_map_ext. intros entry. apply navigationEntries_text.
Qed.

End EmittedText.

(** C3. With at least one column, the tile of index [i] is exported at the
    coordinate (i mod columns, i div columns): this is the coordinate in
    force when the tile is entered, the one of the triple its z-index gives
    the z-index map, the one printed in every shape assignment the tile
    adds to [shapes] and in every pair it adds to the navigation map, and
    the one every object of the tile is exported at; the coordinate moves
    once, by one cell, when the tile is left, whatever the number of its
    objects. *)
Theorem autotile_coordinates_row_major
    (N : JSNumber) (getTilesetColumns : Tileset -> Z)
    (e : GodotTilesetExporter) (h : list HostEvent) (i : nat) (tile : Tile) :
  1 <= getTilesetColumns (tileset e) ->
  nth_error (tiles (tileset e)) i = Some tile ->
  let columns := getTilesetColumns (tileset e) in
  let c := {| coord_x := Z.of_nat i mod columns;
              coord_y := Z.of_nat i / columns |} in
  let before :=
    runTiles getTilesetColumns e h (firstn i (tiles (tileset e))) in
  let entered := exportZIndex tile (enterTile getTilesetColumns before) in
  let calls := objectCalls tile entered (objectsOf tile) in
  let after :=
    runTiles getTilesetColumns e h (firstn (S i) (tiles (tileset e))) in
  autotileCoordinates (enterTile getTilesetColumns before) = c
  /\ zIndexMap (this after)
     = (zIndexMap (this before) ++ zIndexEntries tile c)%list
  /\ shapes (this after)
     = (shapes (this before)
        ++ Text.concat (map (expectedAssignment tile c) calls))%string
  /\ navpolyMap (this after)
     = (navpolyMap (this before)
        ++ flat_map (expectedNavigationPair tile c) calls)%list
  /\ Forall (fun call => autotileCoordinates (fst call) = c) calls
  /\ map snd calls = objectsOf tile
  /\ after = leaveTile (fold_left (exportObject tile) (objectsOf tile) entered)
  /\ autotileCoordinates after
     = {| coord_x := Z.of_nat i mod columns + 1;
          coord_y := Z.of_nat i / columns |}.
Proof.
  intros HC Hi columns c before entered calls after.
  assert (Hc : autotileCoordinates (enterTile getTilesetColumns before) = c).
  { unfold enterTile. cbn [autotileCoordinates]. unfold before.
    rewrite runTiles_tileset.
    apply wrapColumn_row_major; [exact HC|].
    pose proof (runTiles_gridInvariant getTilesetColumns e h
                  (firstn i (tiles (tileset e))) HC) as Hinv.
    rewrite firstn_length_le in Hinv; [exact Hinv|].
    apply Nat.lt_le_incl, nth_error_Some. congruence. }
  assert (Ha : after = exportTile getTilesetColumns before tile).
  { unfold after, before. rewrite (firstn_succ_nth _ _ _ Hi).
    apply runTiles_snoc. }
  destruct (exportTile_expected getTilesetColumns before tile)
    as (_ & E2 & E3).
  fold entered in E2, E3. fold calls in E2, E3. rewrite Hc in E2, E3.
  split; [exact Hc|]. split.
  { now rewrite Ha, exportTile_zIndexMap, Hc. }
  split; [now rewrite Ha|]. split; [now rewrite Ha|]. split.
  { pose proof (objectCalls_coordinates tile entered (objectsOf tile)) as Hall.
    unfold entered in Hall at 1. rewrite exportZIndex_coordinates, Hc in Hall.
    exact Hall. }
  split; [apply objectCalls_objects|]. split.
  { rewrite Ha. unfold exportTile. now rewrite exportObjects_fold. }
  rewrite Ha, exportTile_coordinates.
  unfold enterTile in Hc. cbn [autotileCoordinates] in Hc. now rewrite Hc.
Qed.

(** Three tiles on a grid of two columns: the third tile, of id 2, owns a
    rectangle and a navigation polygon; its z-index triple, its shape
    assignment and its navigation pair all carry (0, 1), and the coordinate
    is left at (1, 1). *)
Lemma autotile_coordinates_example :
  let tile :=
    Examples.tileWith 2 (Some "1.5")
      (Some [Examples.rectangle ""; Examples.squarePolygon "navigation"]) in
  let ts :=
    Examples.tilesetOf
      [Examples.tileWith 0 None None; Examples.tileWith 1 None (Some []);
       tile] in
  let e := constructor Examples.resPath ts "out.tres" in
  let before := runTiles Examples.columnsOf e [] (firstn 2 (tiles ts)) in
  let after := runTiles Examples.columnsOf e [] (firstn 3 (tiles ts)) in
  (1 <= Examples.columnsOf (tileset e)
   /\ nth_error (tiles (tileset e)) 2 = Some tile)
  /\ autotileCoordinates (enterTile Examples.columnsOf before)
     = {| coord_x := 0; coord_y := 1 |}
  /\ zIndexMap (this after) = [(0, 1, DecimalNumber.Finite 15 1)]
  /\ shapes (this after)
     = ("{" ++ nl
        ++ dq ++ "autotile_coord" ++ dq ++ ": Vector2( 0, 1 )," ++ nl
        ++ dq ++ "one_way" ++ dq ++ ": false," ++ nl
        ++ dq ++ "one_way_margin" ++ dq ++ ": 1.0," ++ nl
        ++ dq ++ "shape" ++ dq ++ ": SubResource( 2 )," ++ nl
        ++ dq ++ "shape_transform" ++ dq
        ++ ": Transform2D( 1, 0, 0, 1, 0, 0 )" ++ nl ++ "}, ")%string
  /\ navpolyMap (this after) = ["Vector2( 0, 1 )"; "SubResource( 3 )"]%string
  /\ autotileCoordinates after = {| coord_x := 1; coord_y := 1 |}.
Proof.
  intros tile ts e before after.
  assert (HC : 1 <= Examples.columnsOf (tileset e)) by (vm_compute; discriminate).
  assert (Hi : nth_error (tiles (tileset e)) 2 = Some tile) by reflexivity.
  split; [exact (conj HC Hi)|].
  destruct (autotile_coordinates_row_major
              DecimalNumber.decimalNumber Examples.columnsOf e [] 2 tile HC Hi)
    as (H1 & H2 & H3 & H4 & _ & _ & _ & H8).
  split; [exact H1|]. split; [exact H2|]. split; [exact H3|].
  split; [exact H4 | exact H8].
Defined.

(** C10. Every collision shape is emitted under the id of its tile: each
    object of a tile that builds a collision shape adds to the shape
    resources one block whose header reads
    [[sub_resource type="ConvexPolygonShape2D" id=<tile id>]], and to the
    shape assignments one entry whose reference reads
    [SubResource( <tile id> )], whatever the number of such objects and
    whatever else the tile owns; only navigation blocks take their
    identifier from the counter.  A tile with several collision objects
    therefore emits several blocks under one identifier, all referred to by
    that identifier. *)
Theorem collision_shapes_share_tile_id
    (N : JSNumber) (tile : Tile) (st : IterState) :
  let calls := objectCalls tile st (objectsOf tile) in
  let c := autotileCoordinates st in
  shapesResources (this (exportObjects tile st))
  = (shapesResources (this st) ++ Text.concat (map (expectedBlock tile) calls))
    %string
  /\ shapes (this (exportObjects tile st))
     = (shapes (this st)
        ++ Text.concat (map (expectedAssignment tile c) calls))%string
  /\ map snd calls = objectsOf tile
  /\ Forall
       (fun call =>
          forall shape,
            isNavigation call = false -> shapeOf (snd call) = Some shape ->
            expectedBlock tile call
            = ("[sub_resource type=" ++ dq ++ "ConvexPolygonShape2D" ++ dq
               ++ " id=" ++ showZ (tile_id tile) ++ "]" ++ nl
               ++ "points = PoolVector2Array( "
               ++ renderVertices (verticesOf shape) ++ " )" ++ nl ++ nl)%string
            /\ expectedAssignment tile c call
               = ("{" ++ nl
                  ++ dq ++ "autotile_coord" ++ dq ++ ": Vector2( "
                  ++ showZ (coord_x c) ++ ", " ++ showZ (coord_y c) ++ " ),"
                  ++ nl
                  ++ dq ++ "one_way" ++ dq ++ ": "
                  ++ showBool (String.eqb (object_type (snd call)) "one-way")
                  ++ "," ++ nl
                  ++ dq ++ "one_way_margin" ++ dq ++ ": 1.0," ++ nl
                  ++ dq ++ "shape" ++ dq ++ ": SubResource( "
                  ++ showZ (tile_id tile) ++ " )," ++ nl
                  ++ dq ++ "shape_transform" ++ dq
                  ++ ": Transform2D( 1, 0, 0, 1, 0, 0 )" ++ nl ++ "}, ")%string)
       calls.
Proof.
  intros calls c. rewrite exportObjects_fold.
  destruct (exportObjects_texts tile (objectsOf tile) st) as [H1 H2].
  pose proof (objectCalls_coordinates tile st (objectsOf tile)) as Hc.
  destruct (calls_at_coordinate tile c calls Hc) as (E1 & E2 & _).
  fold calls in H1, H2. rewrite E1 in H1. rewrite E2 in H2.
  split; [exact H1|]. split; [exact H2|].
  split; [apply objectCalls_objects|].
  apply Forall_forall. intros call _ shape Hn Hs.
  unfold expectedBlock, expectedAssignment, blockId. now rewrite Hs, Hn.
Qed.

(** A tile of id 3 with a rectangle, a navigation polygon and a one-way
    polygon: the two collision blocks both carry [id=3], the navigation
    block takes 4, and both shape assignments refer to
    [SubResource( 3 )]. *)
Lemma collision_shapes_share_tile_id_example :
  let objects :=
    [ Examples.rectangle ""; Examples.squarePolygon "navigation";
      Examples.squarePolygon "one-way" ] in
  let tile := Examples.tileWith 3 None (Some objects) in
  let e := constructor Examples.resPath (Examples.tilesetOf [tile]) "out.tres" in
  let st := startIteration e [] in
  shapesResources (this (exportObjects tile st))
  = ("[sub_resource type=" ++ dq ++ "ConvexPolygonShape2D" ++ dq
     ++ " id=3]" ++ nl
     ++ "points = PoolVector2Array( 2, 3, 6, 3, 6, 9, 2, 9 )" ++ nl ++ nl
     ++ "[sub_resource type=" ++ dq ++ "NavigationPolygon" ++ dq
     ++ " id=4]" ++ nl
     ++ "vertices = PoolVector2Array( 5, 5, 15, 5, 15, 15, 5, 15 )" ++ nl
     ++ "polygons = [ PoolIntArray ( 0, 1, 2, 3 ) ]" ++ nl ++ nl
     ++ "[sub_resource type=" ++ dq ++ "ConvexPolygonShape2D" ++ dq
     ++ " id=3]" ++ nl
     ++ "points = PoolVector2Array( 5, 5, 15, 5, 15, 15, 5, 15 )"
     ++ nl ++ nl)%string
  /\ shapes (this (exportObjects tile st))
     = ("{" ++ nl
        ++ dq ++ "autotile_coord" ++ dq ++ ": Vector2( 0, 0 )," ++ nl
        ++ dq ++ "one_way" ++ dq ++ ": false," ++ nl
        ++ dq ++ "one_way_margin" ++ dq ++ ": 1.0," ++ nl
        ++ dq ++ "shape" ++ dq ++ ": SubResource( 3 )," ++ nl
        ++ dq ++ "shape_transform" ++ dq
        ++ ": Transform2D( 1, 0, 0, 1, 0, 0 )" ++ nl ++ "}, "
        ++ "{" ++ nl
        ++ dq ++ "autotile_coord" ++ dq ++ ": Vector2( 0, 0 )," ++ nl
        ++ dq ++ "one_way" ++ dq ++ ": true," ++ nl
        ++ dq ++ "one_way_margin" ++ dq ++ ": 1.0," ++ nl
        ++ dq ++ "shape" ++ dq ++ ": SubResource( 3 )," ++ nl
        ++ dq ++ "shape_transform" ++ dq
        ++ ": Transform2D( 1, 0, 0, 1, 0, 0 )" ++ nl ++ "}, ")%string.
Proof.
  intros objects tile e st.
  destruct (collision_shapes_share_tile_id
              DecimalNumber.decimalNumber tile st) as (H1 & H2 & _).
  split; [exact H1 | exact H2].
Defined.

(** X1. Over a whole export, whatever the exporter held before, the shape
    resources grow by the blocks of the calls in generation order (a
    collision block whose header carries the tile's id, a navigation block
    whose header carries the identifier taken from the counter, nothing for
    an object that builds no shape), the shape assignments by one entry per
    collision shape built, with the one trailing separator removed at the
    end, and the navigation map by one coordinate and reference pair per
    navigation shape built.  Every object of every tile is called once, in
    order, with the tile found at its index. *)
Theorem accumulated_texts_follow_calls
    (N : JSNumber) (getTilesetColumns : Tileset -> Z)
    (e : GodotTilesetExporter) (h : list HostEvent) :
  let ts := tiles (tileset e) in
  let calls := taggedCalls getTilesetColumns 0 (startIteration e h) ts in
  let final := fst (iterateTiles getTilesetColumns e h) in
  shapesResources final
  = (shapesResources e ++ Text.concat (map taggedExpectedBlock calls))%string
  /\ shapes final
     = stripTrailingSeparator
         (shapes e ++ Text.concat (map taggedExpectedAssignment calls))
  /\ navpolyMap final
     = (navpolyMap e ++ flat_map taggedExpectedPair calls)%list
  /\ Forall (fun entry => nth_error ts (fst (fst entry))
                          = Some (snd (fst entry))) calls
  /\ map (fun entry => snd (snd entry)) calls = flat_map objectsOf ts.
Proof.
  intros ts calls final.
  destruct (taggedCalls_expected getTilesetColumns 0 (startIteration e h) ts)
    as (H1 & H2 & H3).
  destruct (taggedCalls_tiles getTilesetColumns 0 (startIteration e h) ts)
    as [H4 H5].
  split; [exact H1|]. split.
  { unfold final, iterateTiles, runTiles. cbn [fst shapes set_shapes].
    fold ts. now rewrite H2. }
  split; [exact H3|]. split; [|exact H5].
  eapply Forall_impl; [|exact H4]. cbn beta.
  intros entry (j & Hj & Hn). now rewrite Hj.
Qed.

(** Two tiles on two columns, of ids 3 and 5: a rectangle on the first, a
    navigation polygon on the second.  The collision block carries [id=3],
    the navigation block [id=6], the one shape assignment refers to 3 at
    (0, 0), and the navigation map holds (1, 0) with a reference to 6. *)
Lemma accumulated_texts_example :
  let ts :=
    Examples.tilesetOf
      [ Examples.tileWith 3 None (Some [Examples.rectangle ""]);
        Examples.tileWith 5 None
          (Some [Examples.squarePolygon "navigation"]) ] in
  let e := constructor Examples.resPath ts "out.tres" in
  let final := fst (iterateTiles Examples.columnsOf e []) in
  shapesResources final
  = ("[sub_resource type=" ++ dq ++ "ConvexPolygonShape2D" ++ dq
     ++ " id=3]" ++ nl
     ++ "points = PoolVector2Array( 2, 3, 6, 3, 6, 9, 2, 9 )" ++ nl ++ nl
     ++ "[sub_resource type=" ++ dq ++ "NavigationPolygon" ++ dq
     ++ " id=6]" ++ nl
     ++ "vertices = PoolVector2Array( 5, 5, 15, 5, 15, 15, 5, 15 )" ++ nl
     ++ "polygons = [ PoolIntArray ( 0, 1, 2, 3 ) ]" ++ nl ++ nl)%string
  /\ shapes final
     = ("{" ++ nl
        ++ dq ++ "autotile_coord" ++ dq ++ ": Vector2( 0, 0 )," ++ nl
        ++ dq ++ "one_way" ++ dq ++ ": false," ++ nl
        ++ dq ++ "one_way_margin" ++ dq ++ ": 1.0," ++ nl
        ++ dq ++ "shape" ++ dq ++ ": SubResource( 3 )," ++ nl
        ++ dq ++ "shape_transform" ++ dq
        ++ ": Transform2D( 1, 0, 0, 1, 0, 0 )" ++ nl ++ "}")%string
  /\ navpolyMap final = ["Vector2( 1, 0 )"; "SubResource( 6 )"]%string.
Proof.
  intros ts e final.
  destruct (accumulated_texts_follow_calls
              DecimalNumber.decimalNumber Examples.columnsOf e [])
    as (H1 & H2 & H3 & _).
  split; [exact H1|]. split; [exact H2 | exact H3].
Defined.

(** ** Identifiers of the emitted blocks *)

Section BlockIdentifiers.

Context {N : JSNumber}.
Variable getTilesetColumns : Tileset -> Z.

Lemma countFrom_below start n :
  Forall (fun id => id <= start + Z.of_nat n) (countFrom start n).
Proof.
  revert start. induction n as [|n IH]; intros start; cbn [countFrom];
    constructor; [lia|].
  eapply Forall_impl; [|apply IH]. cbn beta. intros id Hid. lia.
Qed.

Lemma navigationBlockIds_calls entries :
  navigationBlockIds entries
  = map callId (filter emitsNavigation (map snd entries)).
Proof.
  unfold navigationBlockIds.
  induction entries as [|entry r IH]; [reflexivity|].
  cbn [map filter]. destruct (emitsNavigation (snd entry)) eqn:E; [|exact IH].
  cbn [map]. rewrite IH. f_equal.
  unfold emitsNavigation in E. apply andb_true_iff in E. destruct E as [E _].
  unfold taggedBlockId, blockId, callId. now rewrite E.
Qed.

Lemma filter_emitsNavigation calls :
  filter emitsNavigation calls
  = filter (fun call => match shapeOf (snd call) with
                        | Some _ => true
                        | None => false
                        end)
           (filter isNavigation calls).
Proof.
  induction calls as [|call r IH]; [reflexivity|].
  cbn [filter]. unfold emitsNavigation at 1.
  destruct (isNavigation call); cbn [andb filter];
    [destruct (shapeOf (snd call))|]; now rewrite IH.
Qed.

Lemma isNavigation_count calls :
  List.length (filter isNavigation calls) = navigationCount (map snd calls).
Proof.
  unfold navigationCount. induction calls as [|call r IH]; [reflexivity|].
  cbn [filter map]. unfold isNavigation at 1.
  destruct (String.eqb (object_type (snd call)) "navigation");
    cbn [List.length]; now rewrite IH.
Qed.

(** The identifiers taken along a whole export are the consecutive numbers
    after the seed, one per navigation object of the tileset. *)
Lemma navigationIds_of_export e h :
  let ts := tiles (tileset e) in
  navigationIds (tileCalls getTilesetColumns (startIteration e h) ts)
  = countFrom (initialNavId ts) (navigationCount (flat_map objectsOf ts)).
Proof.
  intros ts.
  destruct (tileCalls_navigationIds getTilesetColumns ts (startIteration e h))
    as [n Hn].
  rewrite Hn. f_equal.
  apply (f_equal (@List.length Z)) in Hn.
  rewrite countFrom_length in Hn. rewrite <- Hn.
  unfold navigationIds. rewrite length_map, isNavigation_count.
  f_equal.
  rewrite <- (taggedCalls_untagged getTilesetColumns 0), map_map.
  apply (taggedCalls_tiles getTilesetColumns 0 (startIteration e h) ts).
Qed.

Lemma collisionBlockIds_tiles k st ts :
  Forall (fun id => exists t, In t ts /\ tile_id t = id)
         (collisionBlockIds (taggedCalls getTilesetColumns k st ts)).
Proof.
  unfold collisionBlockIds. apply Forall_forall. intros id Hin.
  apply in_map_iff in Hin. destruct Hin as (entry & <- & Hentry).
  apply filter_In in Hentry. destruct Hentry as [Hentry Hc].
  destruct (taggedCalls_tiles getTilesetColumns k st ts) as [Hall _].
  rewrite Forall_forall in Hall. destruct (Hall entry Hentry) as (j & _ & Hj).
  exists (snd (fst entry)). split; [eapply nth_error_In; exact Hj|].
  unfold emitsCollision in Hc. apply andb_true_iff in Hc.
  destruct Hc as [Hc _]. apply negb_true_iff in Hc.
  unfold taggedBlockId, blockId. now rewrite Hc.
Qed.

End BlockIdentifiers.

(** X8. As long as the counter stays below 2^53, where the host's numbers
    still count exactly, the navigation blocks of an export carry, in their
    [sub_resource] headers and in the references of the navigation map,
    identifiers that are at least 1, pairwise different, different from the
    id of every tile, and different from the identifier in the header of
    every collision block; the tile ids may have any sign. *)
Theorem navigation_ids_collide_with_nothing
    (N : JSNumber) (getTilesetColumns : Tileset -> Z)
    (e : GodotTilesetExporter) (h : list HostEvent) :
  initialNavId (tiles (tileset e))
  + Z.of_nat (navigationCount (flat_map objectsOf (tiles (tileset e))))
  < 2 ^ 53 ->
  let ts := tiles (tileset e) in
  let entries := taggedCalls getTilesetColumns 0 (startIteration e h) ts in
  let final := fst (iterateTiles getTilesetColumns e h) in
  shapesResources final
  = (shapesResources e ++ Text.concat (map taggedExpectedBlock entries))%string
  /\ navpolyMap final
     = (navpolyMap e ++ flat_map taggedExpectedPair entries)%list
  /\ Forall
       (fun entry =>
          forall shape, shapeOf (snd (snd entry)) = Some shape ->
          exists rest,
            taggedExpectedBlock entry
            = ("[sub_resource type=" ++ dq
               ++ (if isNavigation (snd entry) then "NavigationPolygon"
                   else "ConvexPolygonShape2D")
               ++ dq ++ " id=" ++ showZ (taggedBlockId entry) ++ "]" ++ nl
               ++ rest)%string)
       entries
  /\ NoDup (navigationBlockIds entries)
  /\ Forall (fun id => 1 <= id < 2 ^ 53
                       /\ Forall (fun t => tile_id t <> id) ts
                       /\ ~ In id (collisionBlockIds entries))
            (navigationBlockIds entries).
Proof.
  intros Hbound ts entries final.
  destruct (taggedCalls_expected getTilesetColumns 0 (startIteration e h) ts)
    as (H1 & _ & H3).
  pose proof (navigationIds_of_export getTilesetColumns e h) as Hids.
  cbv zeta in Hids. fold ts in Hids.
  assert (Hsub : navigationBlockIds entries
                 = map callId
                     (filter (fun call => match shapeOf (snd call) with
                                          | Some _ => true
                                          | None => false
                                          end)
                        (filter isNavigation
                           (tileCalls getTilesetColumns
                              (startIteration e h) ts)))).
  { rewrite navigationBlockIds_calls, filter_emitsNavigation.
    unfold entries. now rewrite taggedCalls_untagged. }
  assert (Hrange : Forall (fun id => initialNavId ts < id
                                     /\ id < 2 ^ 53)
                          (navigationBlockIds entries)).
  { rewrite Hsub. apply filter_map_Forall.
    change (map callId (filter isNavigation ?l)) with (navigationIds l).
    rewrite Hids. apply Forall_forall. intros id Hin.
    pose proof (countFrom_above (initialNavId ts)
                  (navigationCount (flat_map objectsOf ts))) as Ha.
    pose proof (countFrom_below (initialNavId ts)
                  (navigationCount (flat_map objectsOf ts))) as Hb.
    rewrite Forall_forall in Ha, Hb.
    specialize (Ha id Hin). specialize (Hb id Hin). unfold ts in *. lia. }
  split; [exact H1|]. split; [exact H3|]. split.
  { apply Forall_forall. intros entry _ shape Hs.
    unfold taggedExpectedBlock, taggedBlockId, expectedBlock.
    rewrite Hs. destruct (isNavigation (snd entry)).
    - unfold navigationBlockText. eexists. reflexivity.
    - unfold collisionBlockText. eexists. reflexivity. }
  split.
  { rewrite Hsub. apply sorted_NoDup, filter_map_sorted.
    change (map callId (filter isNavigation ?l)) with (navigationIds l).
    rewrite Hids. apply countFrom_sorted. }
  pose proof (initialNavId_upper_bound ts) as Hupper.
  pose proof (initialNavId_nonnegative ts) as Hzero.
  pose proof (collisionBlockIds_tiles getTilesetColumns 0
                (startIteration e h) ts) as Hcol.
  fold entries in Hcol. rewrite Forall_forall in Hupper, Hcol.
  eapply Forall_impl; [|exact Hrange]. cbn beta. intros id [Hlow Hhigh].
  split; [lia|]. split.
  - apply Forall_forall. intros t Ht. specialize (Hupper t Ht).
    cbn beta in Hupper. lia.
  - intros Hin. destruct (Hcol id Hin) as (t & Ht & Hid).
    specialize (Hupper t Ht). cbn beta in Hupper. lia.
Qed.

(** Two tiles of ids 4 and 9: the first owns a navigation polygon, a
    rectangle and a shapeless navigation object, the second a navigation
    rectangle.  The navigation blocks carry 10 and 12, the collision block
    carries 4. *)
Lemma navigation_ids_collide_with_nothing_example :
  let ts :=
    Examples.tilesetOf
      [ Examples.tileWith 4 None
          (Some [Examples.squarePolygon "navigation"; Examples.rectangle "";
                 Examples.emptyObject "navigation"]);
        Examples.tileWith 9 None (Some [Examples.rectangle "navigation"]) ] in
  let e := constructor Examples.resPath ts "out.tres" in
  let entries :=
    taggedCalls Examples.columnsOf 0 (startIteration e []) (tiles ts) in
  let final := fst (iterateTiles Examples.columnsOf e []) in
  initialNavId (tiles (tileset e))
  + Z.of_nat (navigationCount (flat_map objectsOf (tiles (tileset e))))
  < 2 ^ 53
  /\ navigationBlockIds entries = [10; 12]
  /\ collisionBlockIds entries = [4]
  /\ NoDup (navigationBlockIds entries)
  /\ shapesResources final
     = ("[sub_resource type=" ++ dq ++ "NavigationPolygon" ++ dq
        ++ " id=10]" ++ nl
        ++ "vertices = PoolVector2Array( 5, 5, 15, 5, 15, 15, 5, 15 )" ++ nl
        ++ "polygons = [ PoolIntArray ( 0, 1, 2, 3 ) ]" ++ nl ++ nl
        ++ "[sub_resource type=" ++ dq ++ "ConvexPolygonShape2D" ++ dq
        ++ " id=4]" ++ nl
        ++ "points = PoolVector2Array( 2, 3, 6, 3, 6, 9, 2, 9 )" ++ nl ++ nl
        ++ "[sub_resource type=" ++ dq ++ "NavigationPolygon" ++ dq
        ++ " id=12]" ++ nl
        ++ "vertices = PoolVector2Array( 2, 3, 6, 3, 6, 9, 2, 9 )" ++ nl
        ++ "polygons = [ PoolIntArray( 0, 1, 2, 3 ) ]" ++ nl ++ nl)%string
  /\ navpolyMap final
     = [ "Vector2( 0, 0 )"; "SubResource( 10 )";
         "Vector2( 1, 0 )"; "SubResource( 12 )" ]%string.
Proof.
  intros ts e entries final.
  assert (Hb : initialNavId (tiles (tileset e))
               + Z.of_nat (navigationCount
                             (flat_map objectsOf (tiles (tileset e))))
               < 2 ^ 53) by (vm_compute; reflexivity).
  destruct (navigation_ids_collide_with_nothing
              DecimalNumber.decimalNumber Examples.columnsOf e [] Hb)
    as (H1 & H2 & _ & H4 & _).
  split; [exact Hb|]. split; [reflexivity|]. split; [reflexivity|].
  split; [exact H4|]. split; [exact H1 | exact H2].
Defined.
